(** * XGMII driver and monitor of cocotb-bus: a shallow embedding

    The two Python modules [cocotb_bus/drivers/xgmii.py] and
    [cocotb_bus/monitors/xgmii.py] are embedded as Rocq functions.

    - Python integers are [Z]; the elements of [bytes] and [bytearray]
      objects are [Z] values in the range [0, 256) (predicate [u8]).
    - A raised [IndexError] is the [IndexError] constructor of [result].
    - The coroutines are functions over the sequence of values that the bus
      signal carries at the successive rising clock edges. *)

From Stdlib Require Import ZArith List Bool Lia.
Import ListNotations.
Local Open Scope Z_scope.

(** ** Outcome of a call that may raise *)

Inductive result (A : Type) : Type :=
| Ok (a : A)
| IndexError
| OutOfFuel.
Arguments Ok {A} a.
Arguments IndexError {A}.
Arguments OutOfFuel {A}.

Definition bind {A B : Type} (m : result A) (f : A -> result B) : result B :=
  match m with
  | Ok a => f a
  | IndexError => IndexError
  | OutOfFuel => OutOfFuel
  end.

Notation "x <- m ;; k" := (bind m (fun x => k))
  (at level 61, m at next level, right associativity).
Notation "' p <- m ;; k" := (bind m (fun x => match x with p => k end))
  (at level 61, p pattern, m at next level, right associativity).

(** ** Constants shared by both modules *)

Definition _XGMII_IDLE : Z := 0x07.
Definition _XGMII_START : Z := 0xFB.
Definition _XGMII_TERMINATE : Z := 0xFD.

Definition _PREAMBLE_SFD : list Z := [0x55; 0x55; 0x55; 0x55; 0x55; 0x55; 0xD5].

(** The values a Python [bytes] element can take. *)
Definition u8 (b : Z) : Prop := 0 <= b < 256.

(** ** Collaborators from [cocotb_bus.compat] *)

(** Modelled from the spec: [cocotb_bus.compat.create_binary] is not among the
    sources.  The spec describes the bus value as "a single 9*N-bit unsigned
    integer" exchanged with the signal; the model keeps the low [nbits] bits
    of the integer. *)
Definition create_binary (v : Z) (nbits : nat) : Z :=
  Z.land v (Z.ones (Z.of_nat nbits)).

(** Modelled from the spec: [cocotb_bus.compat.convert_binary_to_unsigned] is
    not among the sources.  It reads the signal value back as the unsigned
    integer it holds. *)
Definition convert_binary_to_unsigned (v : Z) : Z := v.

(** ** [drivers/xgmii.py]: class [_XGMIIBus] *)

Record _XGMIIBus : Type := mkBus {
  _integer : Z;
  _interleaved : bool;
  _nbytes : nat
}.

(** [_XGMIIBus.__init__] *)
Definition new_bus (nbytes : nat) (interleaved : bool) : _XGMIIBus :=
  mkBus 0 interleaved nbytes.

Definition with_integer (self : _XGMIIBus) (v : Z) : _XGMIIBus :=
  mkBus v (_interleaved self) (_nbytes self).

(** [_XGMIIBus.__setitem__]: [self[index] = (byte, ctrl)], with [byte]
    already an integer. *)
Definition __setitem__ (self : _XGMIIBus) (index : nat) (value : Z * bool)
  : result _XGMIIBus :=
  let '(byte, ctrl) := value in
  if (_nbytes self <=? index)%nat then IndexError
  else if _interleaved self then
    let i1 := Z.lor (_integer self) (Z.shiftl byte (Z.of_nat index * 9)) in
    let i2 := Z.lor i1 (Z.shiftl (Z.b2z ctrl) (9 * Z.of_nat index + 8)) in
    Ok (with_integer self i2)
  else
    let i1 := Z.lor (_integer self) (Z.shiftl byte (Z.of_nat index * 8)) in
    let i2 := Z.lor i1 (Z.shiftl (Z.b2z ctrl)
                          (Z.of_nat (_nbytes self) * 8 + Z.of_nat index)) in
    Ok (with_integer self i2).

(** [_XGMIIBus.value]: the value to drive, and the bus with its integer
    cleared. *)
Definition value (self : _XGMIIBus) : Z * _XGMIIBus :=
  (create_binary (_integer self) (_nbytes self * 9), with_integer self 0).

(** Writing the lanes [index], [index + 1], ... one after the other, as the
    loops of the driver do. *)
Fixpoint set_lanes (self : _XGMIIBus) (index : nat) (lanes : list (Z * bool))
  : result _XGMIIBus :=
  match lanes with
  | [] => Ok self
  | lane :: rest =>
      self' <- __setitem__ self index lane ;;
      set_lanes self' (S index) rest
  end.

(** ** [monitors/xgmii.py]: [XGMII._get_bytes] *)

Definition _get_bytes (nbytes : nat) (interleaved : bool) (signal_value : Z)
  : list bool * list Z :=
  let value := convert_binary_to_unsigned signal_value in
  let byte_shift := if interleaved then 8 + 1 else 8 in
  let ctrl_base := if interleaved then 8 else 8 * Z.of_nat nbytes in
  let ctrl_inc := if interleaved then 9 else 1 in
  let '(bytes, ctrls, _) :=
    fold_left
      (fun (acc : list Z * list bool * Z) (i : nat) =>
         let '(bytes, ctrls, ctrl_base) := acc in
         (bytes ++ [Z.land (Z.shiftr value (Z.of_nat i * byte_shift)) 0xff],
          ctrls ++ [negb (Z.land value (Z.shiftl 1 ctrl_base) =? 0)],
          ctrl_base + ctrl_inc))
      (seq 0 nbytes) ([], [], ctrl_base) in
  (ctrls, bytes).

(** Equality of byte strings. *)
Fixpoint list_eqb (a b : list Z) : bool :=
  match a, b with
  | [], [] => true
  | x :: a', y :: b' => (x =? y) && list_eqb a' b'
  | _, _ => false
  end.

(** ** Library functions used by both modules *)

(** [zlib.crc32]: the CRC-32/IEEE checksum, bit by bit with the reflected
    polynomial [0xEDB88320]. *)
Definition crc32_bit (crc : Z) : Z :=
  if Z.testbit crc 0 then Z.lxor (Z.shiftr crc 1) 0xEDB88320
  else Z.shiftr crc 1.

Definition crc32_byte (crc byte : Z) : Z :=
  Nat.iter 8 crc32_bit (Z.lxor crc byte).

Definition crc32 (data : list Z) : Z :=
  Z.lxor (fold_left crc32_byte data 0xFFFFFFFF) 0xFFFFFFFF.

(** [struct.pack("<I", x)] for [x] in the range of an unsigned 32-bit
    integer: its four bytes, least significant first. *)
Definition struct_pack_I_le (x : Z) : list Z :=
  [Z.land x 0xff; Z.land (Z.shiftr x 8) 0xff;
   Z.land (Z.shiftr x 16) 0xff; Z.land (Z.shiftr x 24) 0xff].

(** [seq[i]] for a non-negative index. *)
Definition index {A : Type} (l : list A) (i : nat) : result A :=
  match nth_error l i with
  | Some a => Ok a
  | None => IndexError
  end.

(** ** [drivers/xgmii.py]: class [XGMII] *)

(** [XGMII.layer1] *)
Definition layer1 (packet : list Z) : list Z :=
  let packet :=
    if (length packet <? 60)%nat
    then packet ++ repeat 0 (60 - length packet)
    else packet in
  _PREAMBLE_SFD ++ packet
    ++ struct_pack_I_le (Z.land (crc32 packet) 0xFFFFFFFF).

(** The driver: its bus helper, the value its signal carries, and the values
    the signal carried at the rising edges awaited so far, oldest first. *)
Record Driver : Type := mkDriver {
  bus : _XGMIIBus;
  signal : Z;
  edges : list Z
}.

(** [self.signal.value = self.bus.value] *)
Definition drive (self : Driver) : Driver :=
  let '(v, bus') := value (bus self) in
  mkDriver bus' v (edges self).

(** [await clkedge] *)
Definition clkedge (self : Driver) : Driver :=
  mkDriver (bus self) (signal self) (edges self ++ [signal self]).

Definition with_bus (self : Driver) (b : _XGMIIBus) : Driver :=
  mkDriver b (signal self) (edges self).

(** [XGMII.idle] *)
Definition idle (self : Driver) : result Driver :=
  b <- set_lanes (bus self) 0
         (repeat (_XGMII_IDLE, true) (_nbytes (bus self))) ;;
  Ok (drive (with_bus self b)).

(** [XGMII.terminate] *)
Definition terminate (self : Driver) (index : nat) : result Driver :=
  b <- __setitem__ (bus self) index (_XGMII_TERMINATE, true) ;;
  if (index <? _nbytes b - 1)%nat then
    b' <- set_lanes b (index + 1)
            (repeat (_XGMII_IDLE, true) (_nbytes b - (index + 1))) ;;
    Ok (with_bus self b')
  else Ok (with_bus self b).

(** [XGMII.__init__], for a signal of [9 * nbytes] bits. *)
Definition driver_init (nbytes : nat) (interleaved : bool) : result Driver :=
  idle (mkDriver (new_bus nbytes interleaved) 0 []).

(** The [for i in range(len(self.bus))] loop in the body of the [while]
    loop of [_driver_send]; it yields the driver, [pkt] and [done]. *)
Fixpoint fill_word (self : Driver) (pkt : list Z) (done : bool)
    (lanes : list nat) : result (Driver * list Z * bool) :=
  match lanes with
  | [] => Ok (self, pkt, done)
  | i :: lanes' =>
      if (i =? length pkt)%nat then
        self' <- terminate self i ;;
        Ok (self', [], true)
      else
        byte <- index pkt i ;;
        b <- __setitem__ (bus self) i (byte, false) ;;
        fill_word (with_bus self b) pkt done lanes'
  end.

(** The [while pkt] loop of [_driver_send]. *)
Fixpoint send_words (fuel : nat) (self : Driver) (pkt : list Z) (done : bool)
  : result (Driver * bool) :=
  match pkt with
  | [] => Ok (self, done)
  | _ :: _ =>
      match fuel with
      | O => OutOfFuel
      | S fuel' =>
          '(self1, pkt1, done1) <-
             fill_word self pkt done (seq 0 (_nbytes (bus self))) ;;
          let self2 := clkedge (drive self1) in
          send_words fuel' self2 (skipn (_nbytes (bus self2)) pkt1) done1
      end
  end.

(** The [if not done:] block of [_driver_send]. *)
Definition terminate_if_not_done (self : Driver) (done : bool)
  : result Driver :=
  if negb done then
    self' <- terminate self 0 ;;
    Ok (clkedge (drive self'))
  else Ok self.

(** [XGMII._driver_send] *)
Definition _driver_send (self : Driver) (pkt : list Z) (sync : bool)
  : result Driver :=
  let pkt := layer1 pkt in
  let self := if sync then clkedge self else self in
  b <- __setitem__ (bus self) 0 (_XGMII_START, true) ;;
  b <- fold_left
         (fun (acc : result _XGMIIBus) (i : nat) =>
            b <- acc ;;
            byte <- index pkt (i - 1) ;;
            __setitem__ b i (byte, false))
         (seq 1 (_nbytes b - 1)) (Ok b) ;;
  let self := with_bus self b in
  let pkt := skipn (_nbytes (bus self) - 1) pkt in
  let self := clkedge (drive self) in
  '(self, done) <- send_words (length pkt) self pkt false ;;
  self <- terminate_if_not_done self done ;;
  self <- idle self ;;
  Ok (clkedge self).

(** The values on the signal at the rising edges of one transmission by a
    freshly constructed driver. *)
Definition transmit (nbytes : nat) (interleaved : bool) (pkt : list Z)
    (sync : bool) : result (list Z) :=
  self <- driver_init nbytes interleaved ;;
  self <- _driver_send self pkt sync ;;
  Ok (edges self).

(** ** [monitors/xgmii.py]: class [XGMII] *)

(** The calls of [self.log.error]. *)
Inductive LogError : Type :=
| ControlCharacterInPayload
| RuntFrame
| NoDataToExtract
| UnknownPreamble
| IncorrectCRC.

(** Where the coroutine [_monitor_recv] is suspended: at the [await clk] of
    the outer loop, or at the one of an inner [while self._add_payload]
    loop. *)
Inductive Mode : Type :=
| SCANNING
| ACCUMULATING.

Record Monitor : Type := mkMonitor {
  bytes : nat;
  interleaved : bool;
  _pkt : list Z;
  errors : list LogError;
  received : list (list Z)
}.

(** [XGMII.__init__] followed by the first statements of [_monitor_recv],
    for a signal of [9 * nbytes] bits. *)
Definition monitor_init (nbytes : nat) (il : bool) : Monitor :=
  mkMonitor nbytes il [] [] [].

Definition with_pkt (self : Monitor) (pkt : list Z) : Monitor :=
  mkMonitor (bytes self) (interleaved self) pkt (errors self) (received self).

Definition log_error (self : Monitor) (e : LogError) : Monitor :=
  mkMonitor (bytes self) (interleaved self) (_pkt self)
    (errors self ++ [e]) (received self).

(** [self._recv(p)], with [p] the payload bytes (the optional decoding by
    scapy is outside the model). *)
Definition _recv (self : Monitor) (p : list Z) : Monitor :=
  mkMonitor (bytes self) (interleaved self) (_pkt self)
    (errors self) (received self ++ [p]).

(** [XGMII._add_payload] *)
Fixpoint _add_payload (self : Monitor) (ctrl : list bool) (bytes : list Z)
  {struct bytes} : result (bool * Monitor) :=
  match bytes with
  | [] => Ok (true, self)
  | byte :: bytes' =>
      match ctrl with
      | [] => IndexError
      | c :: ctrl' =>
          if c then
            if negb (byte =? _XGMII_TERMINATE) then
              Ok (false, with_pkt (log_error self ControlCharacterInPayload) [])
            else Ok (false, self)
          else _add_payload (with_pkt self (_pkt self ++ [byte])) ctrl' bytes'
      end
  end.

(** The statements of [_monitor_recv] after the inner loops: the
    [if self._pkt:] block. *)
Definition deliver (self : Monitor) : Monitor :=
  match _pkt self with
  | [] => self
  | _ :: _ =>
      let pkt := _pkt self in
      let self :=
        if (length pkt <? 64 + 7)%nat then log_error self RuntFrame
        else self in
      if (length pkt <? 12)%nat then
        with_pkt (log_error self NoDataToExtract) []
      else
        let preamble_sfd := firstn 7 pkt in
        let crc32_ := skipn (length pkt - 4) pkt in
        let payload := skipn 7 (firstn (length pkt - 4) pkt) in
        if negb (list_eqb preamble_sfd _PREAMBLE_SFD) then
          with_pkt (log_error self UnknownPreamble) []
        else
          let expected_crc :=
            struct_pack_I_le (Z.land (crc32 payload) 0xFFFFFFFF) in
          let self :=
            if negb (list_eqb crc32_ expected_crc)
            then log_error self IncorrectCRC else self in
          with_pkt (_recv self payload) []
  end.

(** One inner loop: [while self._add_payload(ctrl, bytes)], up to its
    [await clk] or, when the loop ends, on to the next [await clk] of the
    outer loop. *)
Definition accumulate (self : Monitor) (ctrl : list bool) (bytes : list Z)
  : result (Monitor * Mode) :=
  '(more, self') <- _add_payload self ctrl bytes ;;
  if more : bool then Ok (self', ACCUMULATING)
  else Ok (deliver self', SCANNING).

(** [_monitor_recv] from one [await clk] to the next, [word] being the
    value of the signal at the rising edge. *)
Definition monitor_edge (self : Monitor) (mode : Mode) (word : Z)
  : result (Monitor * Mode) :=
  let '(ctrl, bytes_) := _get_bytes (bytes self) (interleaved self) word in
  match mode with
  | ACCUMULATING => accumulate self ctrl bytes_
  | SCANNING =>
      c0 <- index ctrl 0 ;;
      b0 <- index bytes_ 0 ;;
      if c0 && (b0 =? _XGMII_START) then
        accumulate self (skipn 1 ctrl) (skipn 1 bytes_)
      else if (bytes self =? 8)%nat then
        c4 <- index ctrl 4 ;;
        b4 <- index bytes_ 4 ;;
        if c4 && (b4 =? _XGMII_START) then
          accumulate self (skipn 5 ctrl) (skipn 5 bytes_)
        else Ok (deliver self, SCANNING)
      else Ok (deliver self, SCANNING)
  end.

(** [XGMII._monitor_recv] over the values of the signal at successive
    rising edges; the coroutine is left suspended at an [await clk], in the
    mode returned. *)
Fixpoint _monitor_recv (self : Monitor) (mode : Mode) (words : list Z)
  : result (Monitor * Mode) :=
  match words with
  | [] => Ok (self, mode)
  | word :: words' =>
      '(self', mode') <- monitor_edge self mode word ;;
      _monitor_recv self' mode' words'
  end.

(** Transmission observed by a freshly started monitor: the payloads
    handed to [_recv]. *)
Definition loopback (nbytes : nat) (il : bool) (pkt : list Z) (sync : bool)
  : result (list (list Z)) :=
  words <- transmit nbytes il pkt sync ;;
  '(m, _) <- _monitor_recv (monitor_init nbytes il) SCANNING words ;;
  Ok (received m).

(** * Properties of the word layout *)

Section Layout.

Variable il : bool.
Variable N : nat.

(** Bit position of the byte and of the control flag of lane [i]. *)
Definition byte_pos (i : nat) : Z :=
  if il then Z.of_nat i * 9 else Z.of_nat i * 8.
Definition ctrl_pos (i : nat) : Z :=
  if il then 9 * Z.of_nat i + 8 else Z.of_nat N * 8 + Z.of_nat i.

(** The bits one lane write sets. *)
Definition lane_word (i : nat) (lane : Z * bool) : Z :=
  Z.lor (Z.shiftl (fst lane) (byte_pos i))
        (Z.shiftl (Z.b2z (snd lane)) (ctrl_pos i)).

Definition lane_bit (i : nat) (lane : Z * bool) (j : Z) : bool :=
  ((byte_pos i <=? j) && (j <? byte_pos i + 8)
     && Z.testbit (fst lane) (j - byte_pos i))
  || ((j =? ctrl_pos i) && snd lane).

Fixpoint lanes_bit (k : nat) (lanes : list (Z * bool)) (j : Z) : bool :=
  match lanes with
  | [] => false
  | lane :: rest => lane_bit k lane j || lanes_bit (S k) rest j
  end.

(** The integer the bus holds after [set_lanes]. *)
Fixpoint pack (k : nat) (lanes : list (Z * bool)) (acc : Z) : Z :=
  match lanes with
  | [] => acc
  | lane :: rest => pack (S k) rest (Z.lor acc (lane_word k lane))
  end.

End Layout.

(** The word read from a cleared bus after its lanes were written in order. *)
Definition word_of (il : bool) (N : nat) (lanes : list (Z * bool)) : Z :=
  create_binary (pack il N 0 lanes 0) (N * 9).

(** ** The wire frame in the words of the specification *)

(** The raw frame, right-padded with zero bytes to a minimum length of 60. *)
Definition PaddedPayload (raw : list Z) : list Z :=
  raw ++ repeat 0 (60 - length raw).

(** The four bytes of a checksum, least significant first. *)
Definition CRC32_le (x : Z) : list Z :=
  map (fun k => (x / 256 ^ k) mod 256) [0; 1; 2; 3].

(** Preamble and SFD, padded payload, checksum of the padded payload. *)
Definition WireFrame (raw : list Z) : list Z :=
  [0x55; 0x55; 0x55; 0x55; 0x55; 0x55; 0xD5]
    ++ PaddedPayload raw ++ CRC32_le (crc32 (PaddedPayload raw)).

(** ** The lanes of the words of one transmission *)

Definition data_lanes (bs : list Z) : list (Z * bool) :=
  map (fun b => (b, false)) bs.

Definition idle_lanes (n : nat) : list (Z * bool) :=
  repeat (_XGMII_IDLE, true) n.

(** The first word: the start symbol and the first [N - 1] bytes. *)
Definition start_lanes (N : nat) (wire : list Z) : list (Z * bool) :=
  (_XGMII_START, true) :: data_lanes (firstn (N - 1) wire).

(** A word that carries the last bytes, fewer than [N], of a frame: the
    bytes, the terminate symbol, idle symbols up to the width. *)
Definition term_lanes (N : nat) (tail : list Z) : list (Z * bool) :=
  data_lanes tail
    ++ (_XGMII_TERMINATE, true) :: idle_lanes (N - 1 - length tail).

(** The words after the first one: full data words, then the terminating
    word. *)
Fixpoint frame_lanes (fuel : nat) (N : nat) (pkt : list Z) {struct fuel}
  : list (list (Z * bool)) :=
  if (length pkt <? N)%nat then [term_lanes N pkt]
  else
    match fuel with
    | O => []
    | S fuel' =>
        data_lanes (firstn N pkt) :: frame_lanes fuel' N (skipn N pkt)
    end.

Definition transmit_lanes (N : nat) (wire : list Z) (sync : bool)
  : list (list (Z * bool)) :=
  let rest := skipn (N - 1) wire in
  (if sync then [idle_lanes N] else [])
    ++ [start_lanes N wire]
    ++ frame_lanes (length rest) N rest
    ++ [idle_lanes N].

(** Successive calls of [_driver_send] on one driver, one per packet. *)
Fixpoint send_frames (self : Driver) (pkts : list (list Z)) (sync : bool)
  : result Driver :=
  match pkts with
  | [] => Ok self
  | pkt :: rest =>
      self' <- _driver_send self pkt sync ;;
      send_frames self' rest sync
  end.

(** What every exit of one edge of the monitor guarantees. *)
Definition edge_post (self self' : Monitor) (mode' : Mode) : Prop :=
  bytes self' = bytes self /\
  interleaved self' = interleaved self /\
  (mode' = SCANNING -> _pkt self' = []) /\
  (Forall u8 (_pkt self) -> Forall u8 (_pkt self')) /\
  (exists es, errors self' = errors self ++ es) /\
  (received self' = received self \/
   exists p, received self' = received self ++ [p] /\
             (1 <= length p)%nat /\
             (Forall u8 (_pkt self) -> Forall u8 p)).

(** * Proofs *)

Lemma byte_pos_nonneg il i : 0 <= byte_pos il i.
Proof. unfold byte_pos; destruct il; lia. Qed.

Lemma ctrl_pos_nonneg il N i : 0 <= ctrl_pos il N i.
Proof. unfold ctrl_pos; destruct il; lia. Qed.

Lemma u8_testbit_high b m : u8 b -> 8 <= m -> Z.testbit b m = false.
Proof.
  intros Hb Hm. rewrite <- (Z.mod_small b (2 ^ 8)) by (unfold u8 in Hb; lia).
  apply Z.mod_pow2_bits_high; lia.
Qed.

Lemma b2z_shiftl_testbit c p j :
  0 <= p -> 0 <= j ->
  Z.testbit (Z.shiftl (Z.b2z c) p) j = (j =? p) && c.
Proof.
  intros Hp Hj. destruct c; cbn [Z.b2z].
  - rewrite Z.shiftl_1_l, Z.pow2_bits_eqb by lia.
    rewrite andb_true_r, Z.eqb_sym. reflexivity.
  - rewrite Z.shiftl_0_l, Z.bits_0, andb_false_r. reflexivity.
Qed.

Lemma lane_word_testbit il N i lane j :
  u8 (fst lane) -> 0 <= j ->
  Z.testbit (lane_word il N i lane) j = lane_bit il N i lane j.
Proof.
  intros Hb Hj. unfold lane_word, lane_bit.
  pose proof (byte_pos_nonneg il i) as Hbp.
  pose proof (ctrl_pos_nonneg il N i) as Hcp.
  rewrite Z.lor_spec, Z.shiftl_spec, b2z_shiftl_testbit by lia.
  f_equal.
  destruct (Z.leb_spec (byte_pos il i) j); cbn [andb].
  - destruct (Z.ltb_spec j (byte_pos il i + 8)); cbn [andb]; [reflexivity|].
    apply u8_testbit_high; [assumption | lia].
  - apply Z.testbit_neg_r; lia.
Qed.

Lemma pack_testbit il N lanes : forall k acc j,
  Forall (fun lane => u8 (fst lane)) lanes -> 0 <= j ->
  Z.testbit (pack il N k lanes acc) j
  = Z.testbit acc j || lanes_bit il N k lanes j.
Proof.
  induction lanes as [|lane rest IH]; intros k acc j Hl Hj; cbn [pack lanes_bit].
  - now rewrite orb_false_r.
  - inversion Hl; subst.
    rewrite IH, Z.lor_spec, lane_word_testbit by assumption.
    now rewrite orb_assoc.
Qed.

Lemma lane_bit_byte il N i i' lane m :
  (i < N)%nat -> (i' < N)%nat -> 0 <= m < 8 ->
  lane_bit il N i' lane (byte_pos il i + m)
  = (i' =? i)%nat && Z.testbit (fst lane) m.
Proof.
  intros Hi Hi' Hm. unfold lane_bit.
  destruct (Nat.eqb_spec i' i) as [->|Hne].
  - replace (byte_pos il i + m - byte_pos il i) with m by lia.
    destruct (Z.leb_spec (byte_pos il i) (byte_pos il i + m)); [|lia].
    destruct (Z.ltb_spec (byte_pos il i + m) (byte_pos il i + 8)); [|lia].
    destruct (Z.eqb_spec (byte_pos il i + m) (ctrl_pos il N i)) as [E|_].
    + exfalso. unfold byte_pos, ctrl_pos in E. destruct il; lia.
    + cbn. now rewrite orb_false_r.
  - cbn [andb]. apply orb_false_iff; split.
    + destruct (Z.leb_spec (byte_pos il i') (byte_pos il i + m)); [|reflexivity].
      destruct (Z.ltb_spec (byte_pos il i + m) (byte_pos il i' + 8));
        [|reflexivity].
      exfalso. unfold byte_pos in *. destruct il; lia.
    + destruct (Z.eqb_spec (byte_pos il i + m) (ctrl_pos il N i')) as [E|_];
        [|reflexivity].
      exfalso. unfold byte_pos, ctrl_pos in E. destruct il; lia.
Qed.

Lemma lane_bit_ctrl il N i i' lane :
  (i < N)%nat -> (i' < N)%nat ->
  lane_bit il N i' lane (ctrl_pos il N i) = (i' =? i)%nat && snd lane.
Proof.
  intros Hi Hi'. unfold lane_bit.
  replace ((byte_pos il i' <=? ctrl_pos il N i)
           && (ctrl_pos il N i <? byte_pos il i' + 8)) with false.
  2:{ symmetry. apply andb_false_iff.
      destruct (Z.leb_spec (byte_pos il i') (ctrl_pos il N i)); [right|now left].
      apply Z.ltb_ge. unfold byte_pos, ctrl_pos in *. destruct il; lia. }
  cbn [andb orb]. f_equal.
  destruct (Nat.eqb_spec i' i) as [->|Hne]; [apply Z.eqb_refl|].
  apply Z.eqb_neq. unfold ctrl_pos. destruct il; lia.
Qed.

Lemma lanes_bit_byte il N lanes : forall k i m,
  (k + length lanes <= N)%nat -> (i < N)%nat -> 0 <= m < 8 ->
  lanes_bit il N k lanes (byte_pos il i + m)
  = (k <=? i)%nat && Z.testbit (fst (nth (i - k) lanes (0, false))) m.
Proof.
  induction lanes as [|lane rest IH]; intros k i m Hk Hi Hm;
    cbn [lanes_bit length] in *.
  - destruct (i - k)%nat; cbn; now rewrite Z.testbit_0_l, andb_false_r.
  - rewrite lane_bit_byte, IH by lia.
    destruct (Nat.eqb_spec k i) as [->|Hne].
    + rewrite Nat.sub_diag. cbn [nth andb].
      destruct (Nat.leb_spec (S i) i); [lia|].
      destruct (Nat.leb_spec i i); [|lia]. cbn. now rewrite orb_false_r.
    + cbn [andb orb].
      destruct (Nat.leb_spec (S k) i), (Nat.leb_spec k i);
        try lia; try reflexivity.
      replace (i - k)%nat with (S (i - S k)) by lia. reflexivity.
Qed.

Lemma lanes_bit_ctrl il N lanes : forall k i,
  (k + length lanes <= N)%nat -> (i < N)%nat ->
  lanes_bit il N k lanes (ctrl_pos il N i)
  = (k <=? i)%nat && snd (nth (i - k) lanes (0, false)).
Proof.
  induction lanes as [|lane rest IH]; intros k i Hk Hi;
    cbn [lanes_bit length] in *.
  - destruct (i - k)%nat; cbn; now rewrite andb_false_r.
  - rewrite lane_bit_ctrl, IH by lia.
    destruct (Nat.eqb_spec k i) as [->|Hne].
    + rewrite Nat.sub_diag. cbn [nth andb].
      destruct (Nat.leb_spec (S i) i); [lia|].
      destruct (Nat.leb_spec i i); [|lia]. cbn. now rewrite orb_false_r.
    + cbn [andb orb].
      destruct (Nat.leb_spec (S k) i), (Nat.leb_spec k i);
        try lia; try reflexivity.
      replace (i - k)%nat with (S (i - S k)) by lia. reflexivity.
Qed.

(** What [__setitem__] and [set_lanes] leave in the bus. *)

Lemma setitem_ok self i lane :
  (i < _nbytes self)%nat ->
  __setitem__ self i lane
  = Ok (with_integer self
          (Z.lor (_integer self)
                 (lane_word (_interleaved self) (_nbytes self) i lane))).
Proof.
  intros Hi. unfold __setitem__, lane_word, byte_pos, ctrl_pos.
  destruct lane as [b c]. cbn [fst snd].
  destruct (Nat.leb_spec (_nbytes self) i); [lia|].
  destruct (_interleaved self); now rewrite <- Z.lor_assoc.
Qed.

Lemma set_lanes_ok lanes : forall self k,
  (k + length lanes <= _nbytes self)%nat ->
  set_lanes self k lanes
  = Ok (with_integer self
          (pack (_interleaved self) (_nbytes self) k lanes (_integer self))).
Proof.
  induction lanes as [|lane rest IH]; intros self k Hk;
    cbn [set_lanes pack length] in *.
  - destruct self; reflexivity.
  - rewrite setitem_ok by lia. cbn [bind]. rewrite IH by (cbn; lia).
    reflexivity.
Qed.

(** What [_get_bytes] reads. *)

Lemma land_bit_testbit v p :
  0 <= p -> negb (Z.land v (Z.shiftl 1 p) =? 0) = Z.testbit v p.
Proof.
  intros Hp. rewrite Z.shiftl_1_l.
  destruct (Z.testbit v p) eqn:E.
  - destruct (Z.eqb_spec (Z.land v (2 ^ p)) 0) as [H0|]; [|reflexivity].
    assert (Z.testbit (Z.land v (2 ^ p)) p = true) as Ht
      by (rewrite Z.land_spec, E, Z.pow2_bits_true; auto).
    rewrite H0, Z.bits_0 in Ht. discriminate.
  - replace (Z.land v (2 ^ p)) with 0; [reflexivity|].
    symmetry. apply Z.bits_inj'. intros n Hn.
    rewrite Z.land_spec, Z.bits_0, Z.pow2_bits_eqb by lia.
    destruct (Z.eqb_spec p n) as [->|]; [now rewrite E|apply andb_false_r].
Qed.

Lemma get_bytes_fold (f : nat -> Z) (g : Z -> bool) (inc : Z) :
  forall n s bs cs cb,
  fold_left
    (fun (acc : list Z * list bool * Z) (i : nat) =>
       let '(bytes, ctrls, ctrl_base) := acc in
       (bytes ++ [f i], ctrls ++ [g ctrl_base], ctrl_base + inc))
    (seq s n) (bs, cs, cb + Z.of_nat s * inc)
  = (bs ++ map f (seq s n),
     cs ++ map (fun i => g (cb + Z.of_nat i * inc)) (seq s n),
     cb + Z.of_nat (s + n) * inc).
Proof.
  induction n as [|n IH]; intros s bs cs cb; cbn [seq fold_left map].
  - now rewrite !app_nil_r, Nat.add_0_r.
  - replace (cb + Z.of_nat s * inc + inc) with (cb + Z.of_nat (S s) * inc)
      by lia.
    rewrite IH, <- !app_assoc. cbn [app].
    now replace (S s + n)%nat with (s + S n)%nat by lia.
Qed.

Lemma get_bytes_spec N il v :
  _get_bytes N il v
  = (map (fun i => Z.testbit v (ctrl_pos il N i)) (seq 0 N),
     map (fun i => Z.land (Z.shiftr v (byte_pos il i)) 255) (seq 0 N)).
Proof.
  unfold _get_bytes, convert_binary_to_unsigned.
  set (cb := if il then 8 else 8 * Z.of_nat N).
  set (inc := if il then 9 else 1).
  replace cb with (cb + Z.of_nat 0 * inc) at 1 by lia.
  rewrite (get_bytes_fold
             (fun i => Z.land (Z.shiftr v (Z.of_nat i * (if il then 8 + 1 else 8))) 255)
             (fun c => negb (Z.land v (Z.shiftl 1 c) =? 0))).
  cbn [app]. f_equal.
  - apply map_ext. intros i. subst cb inc.
    rewrite land_bit_testbit by (destruct il; lia).
    f_equal. unfold ctrl_pos. destruct il; lia.
  - apply map_ext. intros i. unfold byte_pos. now destruct il.
Qed.

Lemma map_seq_nth {A : Type} (f : nat -> A) (l : list A) (d : A) (n : nat) :
  length l = n ->
  (forall i, (i < n)%nat -> f i = nth i l d) ->
  map f (seq 0 n) = l.
Proof.
  intros Hn H. apply nth_ext with (d := f 0%nat) (d' := d).
  - now rewrite length_map, length_seq.
  - intros i Hi. rewrite length_map, length_seq in Hi.
    rewrite map_nth, seq_nth by assumption. now apply H.
Qed.

Lemma map_seq_const {A : Type} (f : nat -> A) (c : A) :
  (forall i, f i = c) -> forall n s, map f (seq s n) = repeat c n.
Proof.
  intros H. induction n as [|n IH]; intros s; cbn; [reflexivity|].
  now rewrite H, IH.
Qed.

Lemma word_of_testbit il N lanes j :
  Forall (fun lane => u8 (fst lane)) lanes -> 0 <= j ->
  Z.testbit (word_of il N lanes) j
  = lanes_bit il N 0 lanes j && (j <? Z.of_nat (N * 9)).
Proof.
  intros Hl Hj. unfold word_of, create_binary.
  rewrite Z.land_spec, pack_testbit, Z.bits_0, Z.testbit_ones_nonneg
    by (assumption || lia).
  reflexivity.
Qed.

Lemma get_bytes_word_of il N lanes :
  length lanes = N -> Forall (fun lane => u8 (fst lane)) lanes ->
  _get_bytes N il (word_of il N lanes) = (map snd lanes, map fst lanes).
Proof.
  intros HN Hl. rewrite get_bytes_spec. f_equal.
  - apply map_seq_nth with (d := false); [now rewrite length_map|].
    intros i Hi.
    rewrite word_of_testbit by (assumption || apply ctrl_pos_nonneg).
    rewrite lanes_bit_ctrl by lia.
    cbn [Nat.leb andb]. rewrite Nat.sub_0_r.
    replace (ctrl_pos il N i <? Z.of_nat (N * 9)) with true
      by (symmetry; apply Z.ltb_lt; unfold ctrl_pos; destruct il; lia).
    rewrite andb_true_r. now rewrite <- (map_nth snd).
  - apply map_seq_nth with (d := 0); [now rewrite length_map|].
    intros i Hi.
    change 0 with (fst (0, false)). rewrite map_nth.
    assert (u8 (fst (nth i lanes (0, false)))) as Hb.
    { apply (proj1 (Forall_forall _ lanes) Hl). apply nth_In. lia. }
    apply Z.bits_inj'. intros m Hm.
    change 255 with (Z.ones 8).
    rewrite Z.land_spec, Z.shiftr_spec, Z.testbit_ones_nonneg by lia.
    destruct (Z.ltb_spec m 8).
    + rewrite Z.add_comm, word_of_testbit
        by (assumption || pose proof (byte_pos_nonneg il i); lia).
      rewrite lanes_bit_byte by lia.
      cbn [Nat.leb andb]. rewrite Nat.sub_0_r.
      replace (byte_pos il i + m <? Z.of_nat (N * 9)) with true
        by (symmetry; apply Z.ltb_lt; unfold byte_pos; destruct il; lia).
      now rewrite !andb_true_r.
    + rewrite andb_false_r. symmetry. apply u8_testbit_high; [assumption|lia].
Qed.

(** * The bus word *)

(** C3: for a width of 4 or 8 lanes, either layout and every assignment of
    (byte, control) pairs to the lanes 0..N-1, the lane writes succeed, the
    packed word holds the byte of lane i at bits 9i..9i+7 and its control
    flag at bit 9i+8 (interleaved), or the byte at bits 8i..8i+7 and the flag
    at bit 8N+i (block), and unpacking the word read from the bus gives back
    the same pairs in lane order. *)
Theorem get_bytes_inverts_setitem :
  forall (N : nat) (il : bool) (lanes : list (Z * bool)),
    (N = 4 \/ N = 8)%nat ->
    length lanes = N ->
    Forall (fun lane => u8 (fst lane)) lanes ->
    exists b : _XGMIIBus,
      set_lanes (new_bus N il) 0 lanes = Ok b /\
      (forall (i : nat) (m : Z), (i < N)%nat -> 0 <= m < 8 ->
         Z.testbit (fst (value b))
           (if il then 9 * Z.of_nat i + m else 8 * Z.of_nat i + m)
         = Z.testbit (fst (nth i lanes (0, false))) m) /\
      (forall i : nat, (i < N)%nat ->
         Z.testbit (fst (value b))
           (if il then 9 * Z.of_nat i + 8 else 8 * Z.of_nat N + Z.of_nat i)
         = snd (nth i lanes (0, false))) /\
      _get_bytes N il (fst (value b)) = (map snd lanes, map fst lanes).
Proof.
  intros N il lanes _ HN Hl.
  eexists. split; [apply set_lanes_ok; cbn; lia|].
  cbn [value fst new_bus with_integer _integer _interleaved _nbytes].
  fold (word_of il N lanes).
  split; [|split].
  - intros i m Hi Hm.
    replace (if il then 9 * Z.of_nat i + m else 8 * Z.of_nat i + m)
      with (byte_pos il i + m) by (unfold byte_pos; destruct il; lia).
    rewrite word_of_testbit
      by (assumption || pose proof (byte_pos_nonneg il i); lia).
    rewrite lanes_bit_byte by lia. cbn [Nat.leb andb]. rewrite Nat.sub_0_r.
    replace (byte_pos il i + m <? Z.of_nat (N * 9)) with true
      by (symmetry; apply Z.ltb_lt; unfold byte_pos; destruct il; lia).
    apply andb_true_r.
  - intros i Hi.
    replace (if il then 9 * Z.of_nat i + 8 else 8 * Z.of_nat N + Z.of_nat i)
      with (ctrl_pos il N i) by (unfold ctrl_pos; destruct il; lia).
    rewrite word_of_testbit by (assumption || apply ctrl_pos_nonneg).
    rewrite lanes_bit_ctrl by lia. cbn [Nat.leb andb]. rewrite Nat.sub_0_r.
    replace (ctrl_pos il N i <? Z.of_nat (N * 9)) with true
      by (symmetry; apply Z.ltb_lt; unfold ctrl_pos; destruct il; lia).
    apply andb_true_r.
  - now apply get_bytes_word_of.
Qed.

Lemma get_bytes_inverts_setitem_witness :
  exists b : _XGMIIBus,
    set_lanes (new_bus 4 false) 0
      [(0xFB, true); (0x55, false); (0xD5, false); (0xFF, false)] = Ok b /\
    _get_bytes 4 false (fst (value b))
    = ([true; false; false; false], [0xFB; 0x55; 0xD5; 0xFF]).
Proof.
  destruct (get_bytes_inverts_setitem 4 false
              [(0xFB, true); (0x55, false); (0xD5, false); (0xFF, false)])
    as (b & Hb & _ & _ & Hg).
  - left; reflexivity.
  - reflexivity.
  - repeat constructor; cbn; lia.
  - exists b. split; assumption.
Defined.

(** C9: reading the packed value clears the word.  Whatever the bus holds,
    after one read its integer is zero, a second read with no lane write in
    between gives the all-zero value, and every lane unpacked from that value
    has byte 0 and control flag clear. *)
Theorem value_clears_bus :
  forall self : _XGMIIBus,
    let self1 := snd (value self) in
    let second := fst (value self1) in
    _integer self1 = 0 /\
    second = 0 /\
    _get_bytes (_nbytes self) (_interleaved self) second
    = (repeat false (_nbytes self), repeat 0 (_nbytes self)).
Proof.
  intros self. cbv zeta.
  cbn [value snd fst with_integer _integer _interleaved _nbytes].
  unfold create_binary. rewrite Z.land_0_l.
  repeat split.
  rewrite get_bytes_spec. f_equal.
  - apply map_seq_const. intros i. apply Z.bits_0.
  - apply map_seq_const. intros i. now rewrite Z.shiftr_0_l.
Qed.

(** C10: two writes to the same lane accumulate.  With no read in between,
    the integer of the bus after writing (b1, c1) and then (b2, c2) to lane
    i < N is the bitwise OR of its previous content and of the encodings of
    both writes; at the bit positions of lane i it holds the OR of the two
    bytes and of the two control flags, on top of what was there before. *)
Theorem setitem_accumulates :
  forall (self : _XGMIIBus) (i : nat) (b1 b2 : Z) (c1 c2 : bool),
    (i < _nbytes self)%nat -> u8 b1 -> u8 b2 ->
    let il := _interleaved self in
    let N := _nbytes self in
    exists self1 self2 : _XGMIIBus,
      __setitem__ self i (b1, c1) = Ok self1 /\
      __setitem__ self1 i (b2, c2) = Ok self2 /\
      _integer self2
      = Z.lor (Z.lor (_integer self) (lane_word il N i (b1, c1)))
              (lane_word il N i (b2, c2)) /\
      (forall m : Z, 0 <= m < 8 ->
         Z.testbit (_integer self2) (byte_pos il i + m)
         = Z.testbit (_integer self) (byte_pos il i + m)
           || Z.testbit (Z.lor b1 b2) m) /\
      Z.testbit (_integer self2) (ctrl_pos il N i)
      = Z.testbit (_integer self) (ctrl_pos il N i) || (c1 || c2).
Proof.
  intros self i b1 b2 c1 c2 Hi H1 H2 il N.
  do 2 eexists. split; [now apply setitem_ok|].
  split; [now apply setitem_ok|].
  cbn [with_integer _integer _interleaved _nbytes]. fold il N.
  split; [reflexivity|]. split.
  - intros m Hm. pose proof (byte_pos_nonneg il i).
    rewrite !Z.lor_spec, !lane_word_testbit by (assumption || lia).
    rewrite !lane_bit_byte by (assumption || lia).
    rewrite Nat.eqb_refl. cbn [andb fst]. now rewrite orb_assoc.
  - pose proof (ctrl_pos_nonneg il N i).
    rewrite !Z.lor_spec, !lane_word_testbit by (assumption || lia).
    rewrite !lane_bit_ctrl by assumption.
    rewrite Nat.eqb_refl. cbn [andb snd]. now rewrite orb_assoc.
Qed.

Lemma setitem_accumulates_witness :
  exists self1 self2 : _XGMIIBus,
    __setitem__ (new_bus 4 true) 1 (0x0F, false) = Ok self1 /\
    __setitem__ self1 1 (0xF0, true) = Ok self2 /\
    _integer self2 = Z.shiftl 0x1FF 9.
Proof.
  destruct (setitem_accumulates (new_bus 4 true) 1 0x0F 0xF0 false true)
    as (s1 & s2 & E1 & E2 & E3 & _).
  - cbn; lia.
  - unfold u8; lia.
  - unfold u8; lia.
  - exists s1, s2. repeat split; assumption.
Defined.

(** * Framing *)

Lemma layer1_padding packet :
  (if (length packet <? 60)%nat
   then packet ++ repeat 0 (60 - length packet) else packet)
  = PaddedPayload packet.
Proof.
  unfold PaddedPayload. destruct (Nat.ltb_spec (length packet) 60);
    [reflexivity|].
  replace (60 - length packet)%nat with 0%nat by lia.
  cbn. now rewrite app_nil_r.
Qed.

Lemma le_byte x s :
  0 <= s <= 24 ->
  Z.land (Z.shiftr (Z.land x (Z.ones 32)) s) (Z.ones 8) = (x / 2 ^ s) mod 2 ^ 8.
Proof.
  intros Hs. rewrite <- Z.shiftr_div_pow2, <- Z.land_ones by lia.
  apply Z.bits_inj'. intros m Hm.
  rewrite !Z.land_spec, !Z.shiftr_spec, Z.land_spec by lia.
  rewrite !Z.testbit_ones_nonneg by lia.
  destruct (Z.ltb_spec m 8); [|now rewrite !andb_false_r].
  destruct (Z.ltb_spec (m + s) 32); [|lia]. now rewrite !andb_true_r.
Qed.

Lemma struct_pack_crc x :
  struct_pack_I_le (Z.land x 0xFFFFFFFF) = CRC32_le x.
Proof.
  unfold struct_pack_I_le, CRC32_le. cbn [map].
  change 0xFFFFFFFF with (Z.ones 32). change 0xff with (Z.ones 8).
  rewrite <- (Z.shiftr_0_r (Z.land x (Z.ones 32))) at 1.
  rewrite !le_byte by lia. reflexivity.
Qed.

(** The check value of CRC-32/IEEE: the checksum of the ASCII digits
    "123456789". *)
Example crc32_check_value :
  crc32 [0x31; 0x32; 0x33; 0x34; 0x35; 0x36; 0x37; 0x38; 0x39] = 0xCBF43926.
Proof. vm_compute. reflexivity. Qed.

(** The one-byte frame AA on a 4-lane interleaved bus: 71 wire bytes, and
    with the edge of the [sync] wait 21 rising edges. *)
Example transmit_one_byte_frame :
  length (layer1 [0xAA]) = 71%nat /\
  match transmit 4 true [0xAA] true with
  | Ok words => length words = 21%nat
  | _ => False
  end.
Proof. vm_compute. split; reflexivity. Qed.

Lemma layer1_wire packet : layer1 packet = WireFrame packet.
Proof.
  unfold layer1, WireFrame. cbv zeta.
  now rewrite layer1_padding, struct_pack_crc.
Qed.

Lemma PaddedPayload_length raw :
  length (PaddedPayload raw) = Nat.max 60 (length raw).
Proof. unfold PaddedPayload. rewrite length_app, repeat_length. lia. Qed.

Lemma PaddedPayload_long raw :
  (60 <= length raw)%nat -> PaddedPayload raw = raw.
Proof.
  intros H. unfold PaddedPayload.
  replace (60 - length raw)%nat with 0%nat by lia. apply app_nil_r.
Qed.

(** C2: for every raw frame, [layer1] returns the seven bytes
    55 55 55 55 55 55 D5, then the raw bytes right-padded with zero bytes to
    at least 60 bytes (nothing added to a frame of 60 bytes or more), then
    the four bytes, least significant first, of the CRC-32 of the padded
    payload alone. *)
Theorem layer1_is_wire_frame :
  forall raw : list Z,
    layer1 raw
    = [0x55; 0x55; 0x55; 0x55; 0x55; 0x55; 0xD5]
        ++ PaddedPayload raw ++ CRC32_le (crc32 (PaddedPayload raw)) /\
    length (PaddedPayload raw) = Nat.max 60 (length raw) /\
    firstn (length raw) (PaddedPayload raw) = raw /\
    skipn (length raw) (PaddedPayload raw)
    = repeat 0 (length (PaddedPayload raw) - length raw) /\
    ((60 <= length raw)%nat -> PaddedPayload raw = raw) /\
    length (CRC32_le (crc32 (PaddedPayload raw))) = 4%nat.
Proof.
  intros raw. split; [apply layer1_wire|].
  split; [apply PaddedPayload_length|].
  split; [|split; [|split; [apply PaddedPayload_long|reflexivity]]].
  - unfold PaddedPayload. rewrite firstn_app, Nat.sub_diag, firstn_all.
    cbn. apply app_nil_r.
  - rewrite PaddedPayload_length. unfold PaddedPayload.
    rewrite skipn_app, Nat.sub_diag, skipn_all. cbn [skipn app].
    f_equal. lia.
Qed.

(** * The monitor *)

Lemma get_bytes_length N il v ctrl bs :
  _get_bytes N il v = (ctrl, bs) -> length ctrl = N /\ length bs = N.
Proof.
  rewrite get_bytes_spec. intros E. inversion E; subst.
  now rewrite !length_map, !length_seq.
Qed.

Lemma list_eqb_eq a : forall b, list_eqb a b = true <-> a = b.
Proof.
  induction a as [|x a IH]; intros [|y b]; cbn; try (split; congruence).
  rewrite andb_true_iff, Z.eqb_eq, IH. split.
  - intros [-> ->]; reflexivity.
  - intros E; inversion E; auto.
Qed.

Lemma add_payload_data bs : forall ctrl self,
  length ctrl = length bs ->
  (forall j, (j < length bs)%nat -> nth j ctrl false = false) ->
  _add_payload self ctrl bs = Ok (true, with_pkt self (_pkt self ++ bs)).
Proof.
  induction bs as [|b bs IH]; intros ctrl self Hlen Hc; cbn [_add_payload].
  - destruct self; unfold with_pkt; cbn. now rewrite app_nil_r.
  - destruct ctrl as [|c ctrl]; [discriminate|].
    pose proof (Hc 0%nat) as H0. cbn in H0. rewrite H0 by lia.
    rewrite IH.
    + unfold with_pkt; cbn. now rewrite <- app_assoc.
    + cbn in Hlen; lia.
    + intros j Hj. apply (Hc (S j)). cbn; lia.
Qed.

Lemma add_payload_stop bs : forall ctrl self i,
  length ctrl = length bs -> (i < length bs)%nat ->
  (forall j, (j < i)%nat -> nth j ctrl false = false) ->
  nth i ctrl false = true ->
  _add_payload self ctrl bs
  = Ok (false,
        if nth i bs 0 =? _XGMII_TERMINATE
        then with_pkt self (_pkt self ++ firstn i bs)
        else with_pkt (log_error self ControlCharacterInPayload) []).
Proof.
  induction bs as [|b bs IH]; intros ctrl self i Hlen Hi Hc Ht;
    cbn [_add_payload length] in *; [lia|].
  destruct ctrl as [|c ctrl]; [discriminate|].
  destruct i as [|i].
  - cbn in Ht. subst c. cbn [nth firstn].
    destruct (b =? _XGMII_TERMINATE); cbn [negb]; [|reflexivity].
    destruct self; unfold with_pkt; cbn. now rewrite app_nil_r.
  - pose proof (Hc 0%nat) as H0. cbn in H0. rewrite H0 by lia.
    rewrite (IH ctrl _ i).
    + cbn [nth firstn]. unfold with_pkt, log_error; cbn.
      now rewrite <- app_assoc.
    + cbn in Hlen; lia.
    + lia.
    + intros j Hj. apply (Hc (S j)). lia.
    + exact Ht.
Qed.

Lemma deliver_empty self : _pkt self = [] -> deliver self = self.
Proof. intros E. unfold deliver. now rewrite E. Qed.

Lemma deliver_long self :
  (12 <= length (_pkt self))%nat ->
  deliver self
  = let pkt := _pkt self in
    let self1 :=
      if (length pkt <? 64 + 7)%nat then log_error self RuntFrame else self in
    let payload := skipn 7 (firstn (length pkt - 4) pkt) in
    if negb (list_eqb (firstn 7 pkt) _PREAMBLE_SFD) then
      with_pkt (log_error self1 UnknownPreamble) []
    else
      let expected_crc :=
        struct_pack_I_le (Z.land (crc32 payload) 0xFFFFFFFF) in
      let self2 :=
        if negb (list_eqb (skipn (length pkt - 4) pkt) expected_crc)
        then log_error self1 IncorrectCRC else self1 in
      with_pkt (_recv self2 payload) [].
Proof.
  intros H. unfold deliver.
  destruct (_pkt self) as [|x l] eqn:E; [cbn in H; lia|].
  destruct (Nat.ltb_spec (length (x :: l)) 12); [lia|]. reflexivity.
Qed.

(** An edge in accumulating mode whose first control lane carries
    [_XGMII_TERMINATE] ends the frame. *)
Lemma monitor_edge_terminate self word ctrl bs i :
  _get_bytes (bytes self) (interleaved self) word = (ctrl, bs) ->
  (i < bytes self)%nat ->
  (forall j, (j < i)%nat -> nth j ctrl false = false) ->
  nth i ctrl false = true ->
  nth i bs 0 = _XGMII_TERMINATE ->
  monitor_edge self ACCUMULATING word
  = Ok (deliver (with_pkt self (_pkt self ++ firstn i bs)), SCANNING).
Proof.
  intros Hg Hi Hc Ht Hb. unfold monitor_edge. rewrite Hg.
  destruct (get_bytes_length _ _ _ _ _ Hg) as [Lc Lb].
  unfold accumulate. rewrite (add_payload_stop bs ctrl self i)
    by first [assumption | congruence | lia].
  rewrite Hb, Z.eqb_refl. reflexivity.
Qed.

(** C5, amended: on an 8-lane bus, a word seen while scanning whose lane 0
    is not (START, control) and whose lane 4 is (START, control) starts a
    frame: the lanes 5, 6 and 7 of the same word go through the accumulation
    of payload, as the lanes of a word seen while accumulating do; when the
    three lanes are data lanes (control flag clear) their bytes are the
    first three bytes of the frame and the monitor goes on accumulating. *)
Theorem start_at_lane_4 :
  forall (self : Monitor) (word : Z) (ctrl : list bool) (bs : list Z),
    bytes self = 8%nat ->
    _get_bytes (bytes self) (interleaved self) word = (ctrl, bs) ->
    nth 0 ctrl false && (nth 0 bs 0 =? _XGMII_START) = false ->
    nth 4 ctrl false = true ->
    nth 4 bs 0 = _XGMII_START ->
    monitor_edge self SCANNING word
    = accumulate self (skipn 5 ctrl) (skipn 5 bs) /\
    (nth 5 ctrl false = false -> nth 6 ctrl false = false ->
     nth 7 ctrl false = false ->
     monitor_edge self SCANNING word
     = Ok (with_pkt self (_pkt self ++ [nth 5 bs 0; nth 6 bs 0; nth 7 bs 0]),
           ACCUMULATING)).
Proof.
  intros self word ctrl bs H8 Hg H0 H4c H4b.
  assert (monitor_edge self SCANNING word
          = accumulate self (skipn 5 ctrl) (skipn 5 bs)) as Hedge.
  { unfold monitor_edge. rewrite Hg, H8.
    destruct (get_bytes_length _ _ _ _ _ Hg) as [Lc Lb]. rewrite H8 in Lc, Lb.
    destruct ctrl as [|c0 [|c1 [|c2 [|c3 [|c4 ctrl]]]]]; try discriminate.
    destruct bs as [|b0 [|b1 [|b2 [|b3 [|b4 bs]]]]]; try discriminate.
    cbn in H0, H4c, H4b. cbn [index nth_error bind].
    rewrite H0. cbn [Nat.eqb]. rewrite H4c, H4b. reflexivity. }
  split; [exact Hedge|].
  intros H5 H6 H7. rewrite Hedge.
  destruct (get_bytes_length _ _ _ _ _ Hg) as [Lc Lb]. rewrite H8 in Lc, Lb.
  do 8 (destruct ctrl as [|? ctrl]; [discriminate|]).
  do 8 (destruct bs as [|? bs]; [discriminate|]).
  destruct ctrl; [|discriminate]. destruct bs; [|discriminate].
  cbn in H5, H6, H7. subst. cbn [skipn nth].
  unfold accumulate. rewrite add_payload_data.
  - reflexivity.
  - reflexivity.
  - intros [|[|[|j]]] Hj; cbn in *; try reflexivity; lia.
Qed.

Lemma start_at_lane_4_witness :
  monitor_edge (monitor_init 8 true) SCANNING
    (word_of true 8
       [(0x07, true); (0x07, true); (0x07, true); (0x07, true);
        (0xFB, true); (0x55, false); (0x55, false); (0x55, false)])
  = Ok (with_pkt (monitor_init 8 true) [0x55; 0x55; 0x55], ACCUMULATING).
Proof.
  refine (proj2 (start_at_lane_4 (monitor_init 8 true) _
                   [true; true; true; true; true; false; false; false]
                   [0x07; 0x07; 0x07; 0x07; 0xFB; 0x55; 0x55; 0x55]
                   _ _ _ _ _) _ _ _); reflexivity.
Defined.

(** C5 as stated fails on the word IDLE, IDLE, IDLE, IDLE, START, IDLE,
    IDLE, IDLE (control flag set on every lane), seen by a monitor that has
    just started: lane 0 is not START and lane 4 is (START, control), yet
    lane 5 carries a control symbol that is not TERMINATE, so the monitor
    logs the error, keeps an empty buffer and stays scanning. *)
Lemma start_at_lane_4_then_idle_aborts :
  let word :=
    word_of true 8
      [(0x07, true); (0x07, true); (0x07, true); (0x07, true);
       (0xFB, true); (0x07, true); (0x07, true); (0x07, true)] in
  let '(ctrl, bs) := _get_bytes 8 true word in
  nth 0 ctrl false && (nth 0 bs 0 =? _XGMII_START) = false /\
  nth 4 ctrl false = true /\
  nth 4 bs 0 = _XGMII_START /\
  monitor_edge (monitor_init 8 true) SCANNING word
  = Ok (mkMonitor 8 true [] [ControlCharacterInPayload] [], SCANNING).
Proof. vm_compute. repeat split. Qed.

(** C6, amended: an accumulated frame of at least 12 bytes that starts with
    the preamble/SFD constant and whose last four bytes differ from the
    little-endian CRC-32 of its middle bytes (all but the first seven and the
    last four) is reported as having an incorrect CRC and its middle bytes
    are still handed to the caller; the monitor goes back to scanning with an
    empty buffer. *)
Theorem bad_crc_is_delivered :
  forall (self : Monitor) (word : Z) (ctrl : list bool) (bs : list Z)
         (i : nat),
    _get_bytes (bytes self) (interleaved self) word = (ctrl, bs) ->
    (i < bytes self)%nat ->
    (forall j, (j < i)%nat -> nth j ctrl false = false) ->
    nth i ctrl false = true ->
    nth i bs 0 = _XGMII_TERMINATE ->
    let frame := _pkt self ++ firstn i bs in
    let middle := skipn 7 (firstn (length frame - 4) frame) in
    (12 <= length frame)%nat ->
    firstn 7 frame = _PREAMBLE_SFD ->
    skipn (length frame - 4) frame <> CRC32_le (crc32 middle) ->
    exists self' : Monitor,
      monitor_edge self ACCUMULATING word = Ok (self', SCANNING) /\
      _pkt self' = [] /\
      received self' = received self ++ [middle] /\
      errors self'
      = errors self
          ++ (if (length frame <? 71)%nat then [RuntFrame] else [])
          ++ [IncorrectCRC].
Proof.
  intros self word ctrl bs i Hg Hi Hc Ht Hb frame middle Hlen Hpre Hcrc.
  eexists.
  split; [apply (monitor_edge_terminate self word ctrl bs i); assumption|].
  rewrite deliver_long by exact Hlen. cbv zeta.
  cbn [_pkt with_pkt]. fold frame. fold middle.
  rewrite (proj2 (list_eqb_eq _ _) Hpre). cbn [negb].
  rewrite struct_pack_crc.
  destruct (list_eqb (skipn (length frame - 4) frame)
              (CRC32_le (crc32 middle))) eqn:E.
  - apply list_eqb_eq in E. contradiction.
  - cbn [negb]. change (64 + 7)%nat with 71%nat.
    destruct (length frame <? 71)%nat; cbn;
      repeat split; now rewrite <- ?app_assoc.
Qed.

Lemma bad_crc_is_delivered_witness :
  exists self' : Monitor,
    monitor_edge
      (with_pkt (monitor_init 4 true)
         [0x55; 0x55; 0x55; 0x55; 0x55; 0x55; 0xD5; 0xAA; 1; 2; 3; 4])
      ACCUMULATING
      (word_of true 4 [(0xFD, true); (0x07, true); (0x07, true); (0x07, true)])
    = Ok (self', SCANNING) /\
    received self' = [[0xAA]] /\
    errors self' = [RuntFrame; IncorrectCRC].
Proof.
  destruct (bad_crc_is_delivered
              (with_pkt (monitor_init 4 true)
                 [0x55; 0x55; 0x55; 0x55; 0x55; 0x55; 0xD5; 0xAA; 1; 2; 3; 4])
              (word_of true 4
                 [(0xFD, true); (0x07, true); (0x07, true); (0x07, true)])
              [true; true; true; true] [0xFD; 0x07; 0x07; 0x07] 0)
    as (m & E & _ & Hr & He).
  - reflexivity.
  - cbn; lia.
  - intros j Hj; lia.
  - reflexivity.
  - reflexivity.
  - cbn; lia.
  - reflexivity.
  - vm_compute. discriminate.
  - exists m. repeat split; assumption.
Defined.

(** C6 as stated fails on a frame of 11 bytes: the preamble/SFD constant
    followed by 01 02 03 04, which is not the checksum 00 00 00 00 of the
    empty middle.  The frame is dropped and nothing is handed to the
    caller. *)
Lemma bad_crc_short_frame_dropped :
  let frame := [0x55; 0x55; 0x55; 0x55; 0x55; 0x55; 0xD5; 1; 2; 3; 4] in
  firstn 7 frame = _PREAMBLE_SFD /\
  skipn (length frame - 4) frame
  <> CRC32_le (crc32 (skipn 7 (firstn (length frame - 4) frame))) /\
  monitor_edge (with_pkt (monitor_init 4 true) frame) ACCUMULATING
    (word_of true 4 [(0xFD, true); (0x07, true); (0x07, true); (0x07, true)])
  = Ok (mkMonitor 4 true [] [RuntFrame; NoDataToExtract] [], SCANNING).
Proof.
  cbv zeta. split; [reflexivity|]. split; [|reflexivity].
  vm_compute. discriminate.
Qed.

(** C7: an accumulated frame of at least 12 bytes whose first seven bytes
    differ from the preamble/SFD constant is reported as having an unknown
    preamble and is dropped: nothing is handed to the caller, and the
    monitor goes back to scanning with an empty buffer. *)
Theorem bad_preamble_discards_frame :
  forall (self : Monitor) (word : Z) (ctrl : list bool) (bs : list Z)
         (i : nat),
    _get_bytes (bytes self) (interleaved self) word = (ctrl, bs) ->
    (i < bytes self)%nat ->
    (forall j, (j < i)%nat -> nth j ctrl false = false) ->
    nth i ctrl false = true ->
    nth i bs 0 = _XGMII_TERMINATE ->
    let frame := _pkt self ++ firstn i bs in
    (12 <= length frame)%nat ->
    firstn 7 frame <> _PREAMBLE_SFD ->
    exists self' : Monitor,
      monitor_edge self ACCUMULATING word = Ok (self', SCANNING) /\
      _pkt self' = [] /\
      received self' = received self /\
      errors self'
      = errors self
          ++ (if (length frame <? 71)%nat then [RuntFrame] else [])
          ++ [UnknownPreamble].
Proof.
  intros self word ctrl bs i Hg Hi Hc Ht Hb frame Hlen Hpre.
  eexists.
  split; [apply (monitor_edge_terminate self word ctrl bs i); assumption|].
  rewrite deliver_long by exact Hlen. cbv zeta.
  cbn [_pkt with_pkt]. fold frame.
  destruct (list_eqb (firstn 7 frame) _PREAMBLE_SFD) eqn:E.
  - apply list_eqb_eq in E. contradiction.
  - cbn [negb]. change (64 + 7)%nat with 71%nat.
    destruct (length frame <? 71)%nat; cbn;
      repeat split; now rewrite <- ?app_assoc.
Qed.

Lemma bad_preamble_discards_frame_witness :
  exists self' : Monitor,
    monitor_edge
      (with_pkt (monitor_init 4 true)
         [0x55; 0x55; 0x55; 0x55; 0x55; 0x55; 0x55; 0xAA; 1; 2; 3; 4])
      ACCUMULATING
      (word_of true 4 [(0xFD, true); (0x07, true); (0x07, true); (0x07, true)])
    = Ok (self', SCANNING) /\
    _pkt self' = [] /\
    received self' = [] /\
    errors self' = [RuntFrame; UnknownPreamble].
Proof.
  destruct (bad_preamble_discards_frame
              (with_pkt (monitor_init 4 true)
                 [0x55; 0x55; 0x55; 0x55; 0x55; 0x55; 0x55; 0xAA; 1; 2; 3; 4])
              (word_of true 4
                 [(0xFD, true); (0x07, true); (0x07, true); (0x07, true)])
              [true; true; true; true] [0xFD; 0x07; 0x07; 0x07] 0)
    as (m & E & Hp & Hr & He).
  - reflexivity.
  - cbn; lia.
  - intros j Hj; lia.
  - reflexivity.
  - reflexivity.
  - cbn; lia.
  - vm_compute. discriminate.
  - exists m. repeat split; assumption.
Defined.

(** C8, amended: while the monitor is accumulating, a word whose first lane
    with the control flag set carries a byte other than TERMINATE aborts the
    frame: the error is logged, the accumulated bytes are dropped, nothing
    is handed to the caller, and the monitor goes back to scanning.  When
    that lane carries TERMINATE the frame ends with the bytes of the lanes
    before it.  In both cases the lanes after the first control lane are
    ignored: two words that agree up to that lane have the same effect. *)
Theorem control_symbol_aborts_frame :
  forall (self : Monitor) (word : Z) (ctrl : list bool) (bs : list Z)
         (i : nat),
    _get_bytes (bytes self) (interleaved self) word = (ctrl, bs) ->
    (i < bytes self)%nat ->
    (forall j, (j < i)%nat -> nth j ctrl false = false) ->
    nth i ctrl false = true ->
    (nth i bs 0 <> _XGMII_TERMINATE ->
     exists self' : Monitor,
       monitor_edge self ACCUMULATING word = Ok (self', SCANNING) /\
       _pkt self' = [] /\
       received self' = received self /\
       errors self' = errors self ++ [ControlCharacterInPayload]) /\
    (nth i bs 0 = _XGMII_TERMINATE ->
     monitor_edge self ACCUMULATING word
     = Ok (deliver (with_pkt self (_pkt self ++ firstn i bs)), SCANNING)) /\
    (forall (word' : Z) (ctrl' : list bool) (bs' : list Z),
       _get_bytes (bytes self) (interleaved self) word' = (ctrl', bs') ->
       firstn (S i) ctrl' = firstn (S i) ctrl ->
       firstn (S i) bs' = firstn (S i) bs ->
       monitor_edge self ACCUMULATING word'
       = monitor_edge self ACCUMULATING word).
Proof.
  intros self word ctrl bs i Hg Hi Hc Ht.
  destruct (get_bytes_length _ _ _ _ _ Hg) as [Lc Lb].
  assert (monitor_edge self ACCUMULATING word
          = ('(more, self') <-
               Ok (false,
                   if nth i bs 0 =? _XGMII_TERMINATE
                   then with_pkt self (_pkt self ++ firstn i bs)
                   else with_pkt (log_error self ControlCharacterInPayload) [])
             ;;
             if more : bool then Ok (self', ACCUMULATING)
             else Ok (deliver self', SCANNING))) as Hedge.
  { unfold monitor_edge. rewrite Hg. unfold accumulate.
    rewrite (add_payload_stop bs ctrl self i)
      by first [assumption | congruence | lia].
    reflexivity. }
  split; [|split].
  - intros Hb.
    exists (with_pkt (log_error self ControlCharacterInPayload) []).
    split; [|repeat split].
    rewrite Hedge. apply Z.eqb_neq in Hb. rewrite Hb. reflexivity.
  - intros Hb. rewrite Hedge, Hb, Z.eqb_refl. reflexivity.
  - intros word' ctrl' bs' Hg' Fc Fb.
    destruct (get_bytes_length _ _ _ _ _ Hg') as [Lc' Lb'].
    assert (forall j, (j <= i)%nat -> nth j ctrl' false = nth j ctrl false)
      as Nc.
    { intros j Hj.
      pose proof (nth_firstn (S i) ctrl' j false) as E1.
      pose proof (nth_firstn (S i) ctrl j false) as E2.
      destruct (Nat.ltb_spec j (S i)); [|lia]. congruence. }
    assert (nth i bs' 0 = nth i bs 0) as Nb.
    { pose proof (nth_firstn (S i) bs' i 0) as E1.
      pose proof (nth_firstn (S i) bs i 0) as E2.
      destruct (Nat.ltb_spec i (S i)); [|lia]. congruence. }
    assert (firstn i bs' = firstn i bs) as Fi.
    { pose proof (firstn_firstn bs' i (S i)) as E1.
      pose proof (firstn_firstn bs i (S i)) as E2.
      rewrite Nat.min_l in E1, E2 by lia. congruence. }
    rewrite Hedge. unfold monitor_edge. rewrite Hg'. unfold accumulate.
    rewrite (add_payload_stop bs' ctrl' self i); try congruence; try lia.
    + rewrite Nb, Fi. reflexivity.
    + intros j Hj. rewrite Nc by lia. now apply Hc.
    + rewrite Nc by lia. exact Ht.
Qed.

Lemma control_symbol_aborts_frame_witness :
  exists self' : Monitor,
    monitor_edge (with_pkt (monitor_init 4 true) [0x55; 0x55; 0x55])
      ACCUMULATING
      (word_of true 4 [(0x55, false); (0x07, true); (0xFD, true); (0x07, true)])
    = Ok (self', SCANNING) /\
    _pkt self' = [] /\
    received self' = [] /\
    errors self' = [ControlCharacterInPayload].
Proof.
  destruct (proj1 (control_symbol_aborts_frame
              (with_pkt (monitor_init 4 true) [0x55; 0x55; 0x55])
              (word_of true 4
                 [(0x55, false); (0x07, true); (0xFD, true); (0x07, true)])
              [false; true; true; true] [0x55; 0x07; 0xFD; 0x07] 1
              eq_refl ltac:(cbn; lia)
              ltac:(intros [|j] Hj; [reflexivity|lia]) eq_refl))
    as (m & E & Hp & Hr & He).
  - cbn. discriminate.
  - exists m. repeat split; assumption.
Defined.

(** C8 as stated fails on the word that ends every frame.  A 4-lane monitor
    observes the transmission of the one-byte frame AA from its first edge:
    after 18 edges it is accumulating, and the next word carries TERMINATE
    on lane 0 and IDLE with the control flag set on lanes 1 to 3.  Some lane
    of that word has its control flag set with a byte other than TERMINATE,
    and yet the frame accumulated so far is handed to the caller. *)
Lemma idle_after_terminate_delivers :
  match transmit 4 true [0xAA] false with
  | Ok words =>
      match _monitor_recv (monitor_init 4 true) SCANNING (firstn 18 words) with
      | Ok (self, mode) =>
          let word := nth 18 words 0 in
          let '(ctrl, bs) := _get_bytes 4 true word in
          mode = ACCUMULATING /\
          word
          = word_of true 4
              [(0xFD, true); (0x07, true); (0x07, true); (0x07, true)] /\
          (nth 1 ctrl false = true /\ nth 1 bs 0 <> _XGMII_TERMINATE) /\
          monitor_edge self ACCUMULATING word
          = Ok (mkMonitor 4 true [] [] [0xAA :: repeat 0 59], SCANNING)
      | _ => False
      end
  | _ => False
  end.
Proof. vm_compute. repeat split. discriminate. Qed.

(** * The driver *)

Lemma drive_ok acc il N sig eds :
  drive (mkDriver (mkBus acc il N) sig eds)
  = mkDriver (mkBus 0 il N) (create_binary acc (N * 9)) eds.
Proof. reflexivity. Qed.

Lemma set_lanes_mk lanes acc il N k :
  (k + length lanes <= N)%nat ->
  set_lanes (mkBus acc il N) k lanes = Ok (mkBus (pack il N k lanes acc) il N).
Proof. intros H. rewrite set_lanes_ok by (cbn; lia). reflexivity. Qed.

Lemma setitem_mk acc il N i lane :
  (i < N)%nat ->
  __setitem__ (mkBus acc il N) i lane
  = Ok (mkBus (Z.lor acc (lane_word il N i lane)) il N).
Proof. intros H. rewrite setitem_ok by (cbn; lia). reflexivity. Qed.

Lemma idle_ok il N sig eds :
  idle (mkDriver (mkBus 0 il N) sig eds)
  = Ok (mkDriver (mkBus 0 il N) (word_of il N (idle_lanes N)) eds).
Proof.
  unfold idle. cbn [bus _nbytes]. fold (idle_lanes N).
  rewrite set_lanes_mk by (unfold idle_lanes; rewrite repeat_length; lia).
  reflexivity.
Qed.

Lemma terminate_ok acc il N sig eds i :
  (i < N)%nat ->
  terminate (mkDriver (mkBus acc il N) sig eds) i
  = Ok (mkDriver
          (mkBus (pack il N i
                    ((_XGMII_TERMINATE, true) :: idle_lanes (N - 1 - i)) acc)
             il N) sig eds).
Proof.
  intros Hi. unfold terminate. cbn [bus].
  rewrite setitem_mk by assumption. cbn [bind _nbytes].
  destruct (Nat.ltb_spec i (N - 1)).
  - fold (idle_lanes (N - (i + 1))).
    rewrite set_lanes_mk by (unfold idle_lanes; rewrite repeat_length; lia).
    cbn [bind pack with_bus signal edges].
    replace (i + 1)%nat with (S i) by lia.
    now replace (N - S i)%nat with (N - 1 - i)%nat by lia.
  - replace (N - 1 - i)%nat with 0%nat by lia. reflexivity.
Qed.

Lemma pack_app il N l1 : forall l2 k acc,
  pack il N k (l1 ++ l2) acc = pack il N (k + length l1) l2 (pack il N k l1 acc).
Proof.
  induction l1 as [|x l1 IH]; intros l2 k acc; cbn [app pack length].
  - now rewrite Nat.add_0_r.
  - rewrite IH. now replace (S k + length l1)%nat with (k + S (length l1))%nat
      by lia.
Qed.

Lemma skipn_index (pkt : list Z) : forall k,
  (k < length pkt)%nat ->
  exists x, index pkt k = Ok x /\ skipn k pkt = x :: skipn (S k) pkt.
Proof.
  induction pkt as [|y pkt IH]; intros k Hk; cbn [length] in Hk; [lia|].
  destruct k as [|k].
  - exists y. split; reflexivity.
  - destruct (IH k) as (x & E1 & E2); [lia|].
    exists x. split; [exact E1|exact E2].
Qed.

Lemma fill_word_data pkt done il N sig eds : forall n k acc,
  (k + n <= N)%nat -> (k + n <= length pkt)%nat ->
  fill_word (mkDriver (mkBus acc il N) sig eds) pkt done (seq k n)
  = Ok (mkDriver
          (mkBus (pack il N k (data_lanes (firstn n (skipn k pkt))) acc) il N)
          sig eds, pkt, done).
Proof.
  induction n as [|n IH]; intros k acc HN Hp; cbn [seq fill_word].
  - reflexivity.
  - destruct (Nat.eqb_spec k (length pkt)); [lia|].
    destruct (skipn_index pkt k) as (x & E1 & E2); [lia|].
    rewrite E1, E2. cbn [bind bus]. rewrite setitem_mk by lia.
    cbn [bind]. unfold with_bus. cbn [signal edges]. rewrite IH by lia.
    reflexivity.
Qed.

Lemma fill_word_term pkt done il N sig eds : forall n k acc,
  (length pkt < N)%nat -> (k + n = length pkt)%nat ->
  fill_word (mkDriver (mkBus acc il N) sig eds) pkt done (seq k (N - k))
  = Ok (mkDriver
          (mkBus (pack il N k
                    (data_lanes (skipn k pkt)
                       ++ (_XGMII_TERMINATE, true)
                            :: idle_lanes (N - 1 - length pkt)) acc) il N)
          sig eds, [], true).
Proof.
  induction n as [|n IH]; intros k acc HN Hk.
  - replace (N - k)%nat with (S (N - S k)) by lia. cbn [seq fill_word].
    assert (k = length pkt) as -> by lia. rewrite Nat.eqb_refl.
    rewrite terminate_ok by lia. cbn [bind].
    rewrite skipn_all. reflexivity.
  - replace (N - k)%nat with (S (N - S k)) by lia. cbn [seq fill_word].
    destruct (Nat.eqb_spec k (length pkt)); [lia|].
    destruct (skipn_index pkt k) as (x & E1 & E2); [lia|].
    rewrite E1. cbn [bind bus]. rewrite setitem_mk by lia.
    cbn [bind]. unfold with_bus. cbn [signal edges]. rewrite IH by lia.
    rewrite E2. reflexivity.
Qed.

Lemma start_fold pkt il N : forall n k acc,
  (1 <= k)%nat -> (k + n <= N)%nat -> (k - 1 + n <= length pkt)%nat ->
  fold_left
    (fun (acc : result _XGMIIBus) (i : nat) =>
       b <- acc ;;
       byte <- index pkt (i - 1) ;;
       __setitem__ b i (byte, false))
    (seq k n) (Ok (mkBus acc il N))
  = Ok (mkBus (pack il N k (data_lanes (firstn n (skipn (k - 1) pkt))) acc)
          il N).
Proof.
  induction n as [|n IH]; intros k acc Hk HN Hp; cbn [seq fold_left].
  - reflexivity.
  - destruct (skipn_index pkt (k - 1)) as (x & E1 & E2); [lia|].
    cbn [bind]. rewrite E1. cbn [bind]. rewrite setitem_mk by lia.
    rewrite IH by lia. rewrite E2.
    replace (S k - 1)%nat with (S (k - 1)) by lia. reflexivity.
Qed.

Lemma clkedge_drive acc il N sig eds :
  clkedge (drive (mkDriver (mkBus acc il N) sig eds))
  = mkDriver (mkBus 0 il N) (create_binary acc (N * 9))
      (eds ++ [create_binary acc (N * 9)]).
Proof. reflexivity. Qed.

Lemma send_words_ok il N :
  (1 <= N)%nat ->
  forall fuel pkt sig eds,
    (length pkt <= fuel)%nat ->
    exists s d sig',
      send_words fuel (mkDriver (mkBus 0 il N) sig eds) pkt false = Ok (s, d) /\
      terminate_if_not_done s d
      = Ok (mkDriver (mkBus 0 il N) sig'
              (eds ++ map (word_of il N) (frame_lanes fuel N pkt))).
Proof.
  intros HN. induction fuel as [|fuel IH]; intros pkt sig eds Hlen.
  - destruct pkt as [|x pkt]; [|cbn in Hlen; lia].
    cbn [send_words frame_lanes length].
    destruct (Nat.ltb_spec 0 N); [|lia].
    do 3 eexists. split; [reflexivity|].
    unfold terminate_if_not_done. cbn [negb].
    rewrite terminate_ok by lia. cbn [bind]. rewrite clkedge_drive.
    reflexivity.
  - destruct pkt as [|x pkt].
    + cbn [send_words frame_lanes length].
      destruct (Nat.ltb_spec 0 N); [|lia].
      do 3 eexists. split; [reflexivity|].
      unfold terminate_if_not_done. cbn [negb].
      rewrite terminate_ok by lia. cbn [bind]. rewrite clkedge_drive.
      reflexivity.
    + remember (x :: pkt) as p eqn:Ep.
      assert (send_words (S fuel) (mkDriver (mkBus 0 il N) sig eds) p false
              = ('(self1, pkt1, done1) <-
                   fill_word (mkDriver (mkBus 0 il N) sig eds) p false
                     (seq 0 N) ;;
                 let self2 := clkedge (drive self1) in
                 send_words fuel self2 (skipn (_nbytes (bus self2)) pkt1)
                   done1)) as -> by (subst p; reflexivity).
      cbn [frame_lanes]. destruct (Nat.ltb_spec (length p) N) as [Hs|Hl].
      * pose proof (fill_word_term p false il N sig eds (length p) 0 0 Hs
                      eq_refl) as F.
        rewrite Nat.sub_0_r in F. cbn [skipn] in F. rewrite F.
        cbn [bind]. cbv zeta. rewrite clkedge_drive. cbn [bus _nbytes].
        rewrite skipn_nil. destruct fuel; cbn [send_words].
        -- do 3 eexists. split; reflexivity.
        -- do 3 eexists. split; reflexivity.
      * rewrite fill_word_data by lia. cbn [bind]. cbv zeta.
        rewrite clkedge_drive. cbn [bus _nbytes skipn].
        destruct (IH (skipn N p)
                    (create_binary
                       (pack il N 0 (data_lanes (firstn N p)) 0) (N * 9))
                    (eds ++ [create_binary
                               (pack il N 0 (data_lanes (firstn N p)) 0)
                               (N * 9)]))
          as (s & d & sig' & E1 & E2).
        { rewrite length_skipn. lia. }
        exists s, d, sig'. split; [exact E1|].
        rewrite E2. cbn [map]. rewrite <- app_assoc. reflexivity.
Qed.

Lemma driver_send_ok il N pkt sync sig eds :
  (1 <= N)%nat -> (N - 1 <= length (layer1 pkt))%nat ->
  _driver_send (mkDriver (mkBus 0 il N) sig eds) pkt sync
  = Ok (mkDriver (mkBus 0 il N) (word_of il N (idle_lanes N))
          (eds ++ (if sync then [sig] else [])
               ++ [word_of il N (start_lanes N (layer1 pkt))]
               ++ map (word_of il N)
                    (frame_lanes (length (skipn (N - 1) (layer1 pkt))) N
                       (skipn (N - 1) (layer1 pkt)))
               ++ [word_of il N (idle_lanes N)])).
Proof.
  intros HN Hw.
  assert (forall eds',
    _driver_send (mkDriver (mkBus 0 il N) sig eds') pkt false
    = Ok (mkDriver (mkBus 0 il N) (word_of il N (idle_lanes N))
            (eds' ++ [word_of il N (start_lanes N (layer1 pkt))]
               ++ map (word_of il N)
                    (frame_lanes (length (skipn (N - 1) (layer1 pkt))) N
                       (skipn (N - 1) (layer1 pkt)))
               ++ [word_of il N (idle_lanes N)]))) as Hns.
  { intros eds'. unfold _driver_send. cbv zeta. cbn [bus].
    rewrite setitem_mk by lia. cbn [bind _nbytes].
    rewrite start_fold by lia. cbn [bind]. unfold with_bus.
    cbn [signal edges bus _nbytes]. rewrite clkedge_drive.
    destruct (send_words_ok il N HN (length (skipn (N - 1) (layer1 pkt)))
                (skipn (N - 1) (layer1 pkt))
                (create_binary
                   (pack il N 1
                      (data_lanes (firstn (N - 1) (skipn (1 - 1) (layer1 pkt))))
                      (Z.lor 0 (lane_word il N 0 (_XGMII_START, true))))
                   (N * 9))
                (eds' ++ [create_binary
                   (pack il N 1
                      (data_lanes (firstn (N - 1) (skipn (1 - 1) (layer1 pkt))))
                      (Z.lor 0 (lane_word il N 0 (_XGMII_START, true))))
                   (N * 9)]) (le_n _))
      as (s & d & sig' & E1 & E2).
    rewrite E1. cbn [bind]. rewrite E2. cbn [bind].
    rewrite idle_ok. cbn [bind]. unfold clkedge. cbn [bus signal edges].
    rewrite <- !app_assoc. reflexivity. }
  destruct sync.
  - change (_driver_send (mkDriver (mkBus 0 il N) sig eds) pkt true)
      with (_driver_send (mkDriver (mkBus 0 il N) sig (eds ++ [sig])) pkt false).
    rewrite Hns, <- !app_assoc. reflexivity.
  - rewrite Hns. reflexivity.
Qed.

Lemma layer1_length pkt : (71 <= length (layer1 pkt))%nat.
Proof.
  rewrite layer1_wire. unfold WireFrame.
  rewrite !length_app, PaddedPayload_length. unfold CRC32_le.
  rewrite length_map. cbn [length]. lia.
Qed.

Lemma transmit_ok il N pkt sync :
  (1 <= N <= 72)%nat ->
  transmit N il pkt sync
  = Ok (map (word_of il N) (transmit_lanes N (layer1 pkt) sync)).
Proof.
  intros HN. unfold transmit, driver_init, new_bus.
  rewrite idle_ok. cbn [bind].
  rewrite driver_send_ok by (pose proof (layer1_length pkt); lia).
  cbn [bind edges app]. unfold transmit_lanes. cbv zeta.
  rewrite !map_app. destruct sync; reflexivity.
Qed.

Lemma frame_lanes_split N :
  (1 <= N)%nat ->
  forall fuel pkt,
    (length pkt <= fuel)%nat ->
    exists (chunks : list (list Z)) (tail : list Z),
      frame_lanes fuel N pkt = map data_lanes chunks ++ [term_lanes N tail] /\
      concat chunks ++ tail = pkt /\
      Forall (fun c => length c = N) chunks /\
      (length tail < N)%nat /\
      length pkt = (length chunks * N + length tail)%nat.
Proof.
  intros HN. induction fuel as [|fuel IH]; intros pkt Hlen; cbn [frame_lanes];
    destruct (Nat.ltb_spec (length pkt) N) as [Hs|Hl]; try lia.
  - exists [], pkt. repeat split; [constructor|assumption].
  - exists [], pkt. repeat split; [constructor|assumption].
  - destruct (IH (skipn N pkt)) as (chunks & tail & E & Hc & Hf & Ht & Hn).
    { rewrite length_skipn. lia. }
    exists (firstn N pkt :: chunks), tail. rewrite E. cbn [map concat app].
    repeat split.
    + now rewrite <- app_assoc, Hc, firstn_skipn.
    + constructor; [|assumption]. rewrite length_firstn. lia.
    + assumption.
    + rewrite length_skipn in Hn. cbn [length]. lia.
Qed.

Lemma concat_chunks_length N (chunks : list (list Z)) :
  Forall (fun c => length c = N) chunks ->
  length (concat chunks) = (length chunks * N)%nat.
Proof.
  induction 1 as [|c l Hc _ IH]; [reflexivity|].
  cbn [concat length]. rewrite length_app, IH, Hc. lia.
Qed.

(** C4: for a bus of 4 or 8 lanes, when the number of bytes of the wire
    frame left after the start word is a multiple of the width, the words
    after the start word are full data words followed by one more word with
    (TERMINATE, control) on lane 0 and (IDLE, control) on every other lane;
    when that number is one less than a multiple of the width, the last data
    word carries the final N - 1 bytes and (TERMINATE, control) on its last
    lane, and no further word precedes the closing idle word.  The words are
    given as [word_of il N lanes], the value read from the bus after [lanes]
    were written on lanes 0, 1, ... *)
Theorem boundary_termination :
  forall (N : nat) (il : bool) (raw : list Z) (sync : bool),
    (N = 4 \/ N = 8)%nat ->
    let wire := layer1 raw in
    let rest := skipn (N - 1) wire in
    let head :=
      (if sync then [idle_lanes N] else []) ++ [start_lanes N wire] in
    ((length rest mod N = 0)%nat ->
     exists chunks : list (list Z),
       Forall (fun c => length c = N) chunks /\
       concat chunks = rest /\
       transmit N il raw sync
       = Ok (map (word_of il N)
               (head ++ map data_lanes chunks
                  ++ [(_XGMII_TERMINATE, true) :: idle_lanes (N - 1);
                      idle_lanes N]))) /\
    (((length rest + 1) mod N = 0)%nat ->
     exists (chunks : list (list Z)) (tail : list Z),
       Forall (fun c => length c = N) chunks /\
       length tail = (N - 1)%nat /\
       concat chunks ++ tail = rest /\
       transmit N il raw sync
       = Ok (map (word_of il N)
               (head ++ map data_lanes chunks
                  ++ [data_lanes tail ++ [(_XGMII_TERMINATE, true)];
                      idle_lanes N]))).
Proof.
  intros N il raw sync HN wire rest head.
  assert (1 <= N <= 72)%nat as HN' by lia.
  assert (1 <= N)%nat as HN1 by lia.
  destruct (frame_lanes_split N HN1 (length rest) rest (le_n _))
    as (chunks & tail & E & Hc & Hf & Ht & Hn).
  assert (transmit N il raw sync
          = Ok (map (word_of il N)
                  (head ++ map data_lanes chunks
                     ++ [term_lanes N tail; idle_lanes N]))) as Htx.
  { rewrite transmit_ok by assumption. unfold transmit_lanes. cbv zeta.
    fold wire. fold rest. rewrite E. subst head.
    now rewrite <- !app_assoc. }
  split.
  - intros Hm. exists chunks.
    assert (length tail = 0%nat) as Ht0.
    { rewrite Hn, Nat.add_comm, Nat.Div0.mod_add in Hm.
      rewrite Nat.mod_small in Hm; assumption. }
    destruct tail; [|discriminate].
    rewrite app_nil_r in Hc. repeat split; try assumption.
    rewrite Htx. unfold term_lanes. cbn [data_lanes map app length].
    now rewrite Nat.sub_0_r.
  - intros Hm. exists chunks, tail.
    assert (length tail = (N - 1)%nat) as Ht1.
    { destruct (Nat.eq_dec (length tail + 1) N) as [|Hne]; [lia|].
      exfalso.
      replace (length rest + 1)%nat
        with (length tail + 1 + length chunks * N)%nat in Hm by lia.
      rewrite Nat.Div0.mod_add, Nat.mod_small in Hm; lia. }
    repeat split; try assumption.
    rewrite Htx. unfold term_lanes. rewrite Ht1.
    replace (N - 1 - (N - 1))%nat with 0%nat by lia. reflexivity.
Qed.

Lemma boundary_termination_witness :
  (exists chunks : list (list Z),
     length chunks = 17%nat /\
     transmit 4 true [0xAA] true
     = Ok (map (word_of true 4)
             ([idle_lanes 4; start_lanes 4 (layer1 [0xAA])]
                ++ map data_lanes chunks
                ++ [(_XGMII_TERMINATE, true) :: idle_lanes 3; idle_lanes 4])))
  /\
  (exists (chunks : list (list Z)) (tail : list Z),
     length chunks = 17%nat /\ length tail = 3%nat /\
     transmit 4 true (repeat 0xAA 63) true
     = Ok (map (word_of true 4)
             ([idle_lanes 4; start_lanes 4 (layer1 (repeat 0xAA 63))]
                ++ map data_lanes chunks
                ++ [data_lanes tail ++ [(_XGMII_TERMINATE, true)];
                    idle_lanes 4]))).
Proof.
  split.
  - destruct (proj1 (boundary_termination 4 true [0xAA] true
                       (or_introl eq_refl)))
      as (chunks & Hf & Hc & E).
    + vm_compute. reflexivity.
    + exists chunks. split; [|exact E].
      apply (f_equal (@length Z)) in Hc.
      rewrite (concat_chunks_length 4 chunks Hf) in Hc.
      assert (length (skipn (4 - 1) (layer1 [0xAA])) = 68%nat) as R
        by (vm_compute; reflexivity).
      rewrite R in Hc. lia.
  - destruct (proj2 (boundary_termination 4 true (repeat 0xAA 63) true
                       (or_introl eq_refl)))
      as (chunks & tail & Hf & Ht & Hc & E).
    + vm_compute. reflexivity.
    + exists chunks, tail. split; [|split; [exact Ht|exact E]].
      apply (f_equal (@length Z)) in Hc.
      rewrite length_app, (concat_chunks_length 4 chunks Hf), Ht in Hc.
      assert (length (skipn (4 - 1) (layer1 (repeat 0xAA 63))) = 71%nat) as R
        by (vm_compute; reflexivity).
      rewrite R in Hc. lia.
Defined.

(** * Transmission observed by the monitor *)

Lemma Forall_firstn_skipn {A : Type} (P : A -> Prop) (l : list A) n :
  Forall P l -> Forall P (firstn n l) /\ Forall P (skipn n l).
Proof.
  intros H. rewrite <- (firstn_skipn n l) in H. now apply Forall_app in H.
Qed.

Lemma data_lanes_u8 bs :
  Forall u8 bs -> Forall (fun lane => u8 (fst lane)) (data_lanes bs).
Proof.
  intros H. unfold data_lanes. apply Forall_map.
  eapply Forall_impl; [|exact H]. now intros b Hb.
Qed.

Lemma idle_lanes_u8 n : Forall (fun lane => u8 (fst lane)) (idle_lanes n).
Proof.
  unfold idle_lanes. apply Forall_forall. intros x Hx.
  apply repeat_spec in Hx. subst x. cbn. unfold u8, _XGMII_IDLE. lia.
Qed.

Lemma data_lanes_fst bs : map fst (data_lanes bs) = bs.
Proof.
  unfold data_lanes. rewrite map_map. cbn [fst]. apply map_id.
Qed.

Lemma repeat_u8 b n : u8 b -> Forall u8 (repeat b n).
Proof.
  intros Hb. apply Forall_forall. intros x Hx.
  apply repeat_spec in Hx. now subst x.
Qed.

Lemma layer1_u8 raw : Forall u8 raw -> Forall u8 (layer1 raw).
Proof.
  intros H. rewrite layer1_wire. unfold WireFrame, PaddedPayload, CRC32_le.
  apply Forall_app. split.
  - apply Forall_forall. intros x Hx. cbn [In] in Hx. unfold u8.
    intuition lia.
  - apply Forall_app. split.
    + apply Forall_app. split; [assumption|].
      apply repeat_u8. unfold u8; lia.
    + apply Forall_map. apply Forall_forall. intros k _.
      unfold u8. apply Z.mod_pos_bound. lia.
Qed.

Lemma add_payload_lanes_data d : forall self,
  _add_payload self (map snd (data_lanes d)) (map fst (data_lanes d))
  = Ok (true, with_pkt self (_pkt self ++ d)).
Proof.
  induction d as [|b d IH]; intros self;
    cbn [data_lanes map fst snd _add_payload].
  - destruct self; unfold with_pkt; cbn. now rewrite app_nil_r.
  - fold (data_lanes d). rewrite IH. unfold with_pkt; cbn.
    now rewrite <- app_assoc.
Qed.

Lemma add_payload_lanes_term d rest : forall self,
  _add_payload self
    (map snd (data_lanes d ++ (_XGMII_TERMINATE, true) :: rest))
    (map fst (data_lanes d ++ (_XGMII_TERMINATE, true) :: rest))
  = Ok (false, with_pkt self (_pkt self ++ d)).
Proof.
  induction d as [|b d IH]; intros self;
    cbn [data_lanes map fst snd _add_payload app].
  - rewrite Z.eqb_refl. cbn [negb].
    destruct self; unfold with_pkt; cbn. now rewrite app_nil_r.
  - fold (data_lanes d). rewrite IH. unfold with_pkt; cbn.
    now rewrite <- app_assoc.
Qed.

Lemma monitor_idle_word N il e r :
  (1 <= N)%nat ->
  monitor_edge (mkMonitor N il [] e r) SCANNING (word_of il N (idle_lanes N))
  = Ok (mkMonitor N il [] e r, SCANNING).
Proof.
  intros HN. unfold monitor_edge. cbn [bytes interleaved].
  rewrite get_bytes_word_of
    by (apply idle_lanes_u8 || (unfold idle_lanes; apply repeat_length)).
  destruct N as [|n]; [lia|].
  unfold idle_lanes. cbn [repeat map fst snd index nth_error bind].
  change (_XGMII_IDLE =? _XGMII_START) with false. cbn [andb].
  destruct (Nat.eqb_spec (S n) 8) as [E|_]; [|reflexivity].
  injection E as ->. reflexivity.
Qed.

Lemma monitor_start_word N il wire e r :
  (1 <= N)%nat -> (N - 1 <= length wire)%nat -> Forall u8 wire ->
  monitor_edge (mkMonitor N il [] e r) SCANNING
    (word_of il N (start_lanes N wire))
  = Ok (mkMonitor N il (firstn (N - 1) wire) e r, ACCUMULATING).
Proof.
  intros HN Hw Hu. unfold monitor_edge. cbn [bytes interleaved].
  rewrite get_bytes_word_of.
  - unfold start_lanes.
    cbn [map fst snd index nth_error bind skipn].
    rewrite Z.eqb_refl. cbn [andb]. unfold accumulate.
    rewrite add_payload_lanes_data. reflexivity.
  - unfold start_lanes, data_lanes. cbn [length].
    rewrite length_map, length_firstn. lia.
  - unfold start_lanes. constructor; [cbn; unfold u8, _XGMII_START; lia|].
    apply data_lanes_u8. now apply Forall_firstn_skipn.
Qed.

Lemma monitor_frame_words N il :
  (1 <= N)%nat ->
  forall fuel pkt p e r,
    (length pkt <= fuel)%nat -> Forall u8 pkt ->
    _monitor_recv (mkMonitor N il p e r) ACCUMULATING
      (map (word_of il N) (frame_lanes fuel N pkt))
    = Ok (deliver (mkMonitor N il (p ++ pkt) e r), SCANNING).
Proof.
  intros HN.
  assert (forall pkt p e r, (length pkt < N)%nat -> Forall u8 pkt ->
            _monitor_recv (mkMonitor N il p e r) ACCUMULATING
              (map (word_of il N) [term_lanes N pkt])
            = Ok (deliver (mkMonitor N il (p ++ pkt) e r), SCANNING)) as Hterm.
  { intros pkt p e r Hs Hu. cbn [map _monitor_recv].
    unfold monitor_edge. cbn [bytes interleaved].
    rewrite get_bytes_word_of.
    - unfold term_lanes, accumulate. rewrite add_payload_lanes_term.
      reflexivity.
    - unfold term_lanes, data_lanes, idle_lanes.
      rewrite length_app, length_map. cbn [length].
      rewrite repeat_length. lia.
    - unfold term_lanes. apply Forall_app. split; [now apply data_lanes_u8|].
      constructor; [cbn; unfold u8, _XGMII_TERMINATE; lia|].
      apply idle_lanes_u8. }
  induction fuel as [|fuel IH]; intros pkt p e r Hlen Hu; cbn [frame_lanes];
    destruct (Nat.ltb_spec (length pkt) N) as [Hs|Hl]; try lia;
    try (now apply Hterm).
  cbn [map _monitor_recv]. unfold monitor_edge. cbn [bytes interleaved].
  destruct (Forall_firstn_skipn u8 pkt N Hu) as [Hu1 Hu2].
  rewrite get_bytes_word_of.
  - unfold accumulate. rewrite add_payload_lanes_data. cbn [bind].
    unfold with_pkt. cbn [bytes interleaved _pkt errors received].
    rewrite IH by (rewrite ?length_skipn; assumption || lia).
    now rewrite <- app_assoc, firstn_skipn.
  - unfold data_lanes. rewrite length_map, length_firstn. lia.
  - now apply data_lanes_u8.
Qed.

Lemma list_eqb_refl a : list_eqb a a = true.
Proof. now apply list_eqb_eq. Qed.

Lemma deliver_wire N il raw e r :
  deliver (mkMonitor N il (layer1 raw) e r)
  = mkMonitor N il [] e (r ++ [PaddedPayload raw]).
Proof.
  pose proof (layer1_length raw) as Hlen.
  rewrite deliver_long by (cbn [_pkt]; lia). cbv zeta. cbn [_pkt].
  change (64 + 7)%nat with 71%nat.
  destruct (Nat.ltb_spec (length (layer1 raw)) 71); [lia|].
  assert (length (layer1 raw) - 4
          = length (_PREAMBLE_SFD ++ PaddedPayload raw))%nat as L4.
  { rewrite layer1_wire. unfold WireFrame, CRC32_le, _PREAMBLE_SFD.
    rewrite !length_app, length_map. cbn [length]. lia. }
  rewrite L4.
  assert (layer1 raw
          = (_PREAMBLE_SFD ++ PaddedPayload raw)
              ++ CRC32_le (crc32 (PaddedPayload raw))) as W
    by (rewrite layer1_wire; unfold WireFrame; now rewrite <- app_assoc).
  assert (firstn 7 ((_PREAMBLE_SFD ++ PaddedPayload raw)
                      ++ CRC32_le (crc32 (PaddedPayload raw)))
          = _PREAMBLE_SFD) as F1 by (rewrite <- app_assoc; reflexivity).
  assert (skipn 7 (_PREAMBLE_SFD ++ PaddedPayload raw) = PaddedPayload raw)
    as F2 by reflexivity.
  rewrite W, F1, list_eqb_refl. cbn [negb].
  rewrite skipn_app, Nat.sub_diag, skipn_all.
  rewrite firstn_app, Nat.sub_diag, firstn_all.
  rewrite firstn_O, skipn_O, app_nil_r, F2. cbn [app].
  rewrite struct_pack_crc, list_eqb_refl. reflexivity.
Qed.

Lemma monitor_recv_app l1 : forall self mode l2,
  _monitor_recv self mode (l1 ++ l2)
  = ('(s, m) <- _monitor_recv self mode l1 ;; _monitor_recv s m l2).
Proof.
  induction l1 as [|w l1 IH]; intros self mode l2; cbn [app _monitor_recv bind].
  - reflexivity.
  - destruct (monitor_edge self mode w) as [[s m]| |]; cbn [bind];
      [apply IH|reflexivity|reflexivity].
Qed.

Lemma loopback_ok N il raw sync :
  (1 <= N <= 72)%nat -> Forall u8 raw ->
  loopback N il raw sync = Ok [PaddedPayload raw].
Proof.
  intros HN Hu. unfold loopback. rewrite transmit_ok by assumption.
  cbn [bind]. unfold transmit_lanes, monitor_init. cbv zeta.
  pose proof (layer1_length raw) as Hlen.
  pose proof (layer1_u8 raw Hu) as Hw.
  assert (_monitor_recv (mkMonitor N il [] [] []) SCANNING
            (map (word_of il N)
               ([start_lanes N (layer1 raw)]
                  ++ frame_lanes (length (skipn (N - 1) (layer1 raw))) N
                       (skipn (N - 1) (layer1 raw))
                  ++ [idle_lanes N]))
          = Ok (mkMonitor N il [] [] [PaddedPayload raw], SCANNING)) as Hrun.
  { rewrite !map_app, monitor_recv_app. cbn [map _monitor_recv].
    rewrite monitor_start_word by (assumption || lia). cbn [bind].
    rewrite monitor_recv_app.
    rewrite monitor_frame_words
      by (lia || apply (Forall_firstn_skipn u8 (layer1 raw) (N - 1) Hw)).
    rewrite firstn_skipn, deliver_wire. cbn [bind app _monitor_recv].
    rewrite monitor_idle_word by lia. reflexivity. }
  destruct sync.
  - rewrite map_app, monitor_recv_app. cbn [map _monitor_recv].
    rewrite monitor_idle_word by lia. cbn [bind].
    rewrite Hrun. reflexivity.
  - rewrite app_nil_l, Hrun. reflexivity.
Qed.

(** C1, amended: for a bus of 4 or 8 lanes and either layout, transmitting a
    raw frame and observing the words with the monitor hands the caller
    exactly one payload: the raw frame right-padded with zero bytes to 60
    bytes.  A raw frame of 60 bytes or more comes back unchanged. *)
Theorem loopback_returns_padded_frame :
  forall (N : nat) (il : bool) (raw : list Z) (sync : bool),
    (N = 4 \/ N = 8)%nat ->
    Forall u8 raw ->
    loopback N il raw sync = Ok [raw ++ repeat 0 (60 - length raw)] /\
    ((60 <= length raw)%nat -> loopback N il raw sync = Ok [raw]).
Proof.
  intros N il raw sync HN Hu.
  assert (loopback N il raw sync = Ok [PaddedPayload raw]) as E
    by (apply loopback_ok; [lia|assumption]).
  split; [exact E|].
  intros Hl. rewrite E. now rewrite PaddedPayload_long.
Qed.

Lemma loopback_returns_padded_frame_witness :
  loopback 8 false (repeat 0x5A 64) true = Ok [repeat 0x5A 64].
Proof.
  refine (proj2 (loopback_returns_padded_frame 8 false (repeat 0x5A 64) true
                   (or_intror eq_refl) _) _).
  - apply repeat_u8. unfold u8; lia.
  - rewrite repeat_length. lia.
Defined.

(** C1 as stated fails on the one-byte raw frame AA: the monitor hands the
    caller the 60 bytes of the padded payload, not the one byte sent. *)
Lemma loopback_short_frame_comes_back_padded :
  (1 <= length [0xAA] <= 1500)%nat /\
  loopback 4 true [0xAA] true = Ok [0xAA :: repeat 0 59] /\
  loopback 4 true [0xAA] true <> Ok [[0xAA]].
Proof.
  split; [cbn; lia|]. split; [vm_compute; reflexivity|].
  vm_compute. discriminate.
Qed.

(** * Further properties of the bus helper *)

Lemma land_255_u8 x : u8 (Z.land x 255).
Proof.
  unfold u8. change 255 with (Z.ones 8). rewrite Z.land_ones by lia.
  apply Z.mod_pos_bound. lia.
Qed.

Lemma lane_word_zero il N i : lane_word il N i (0, false) = 0.
Proof.
  unfold lane_word. cbn [fst snd Z.b2z]. now rewrite !Z.shiftl_0_l.
Qed.

Lemma pack_zeros il N n : forall k acc,
  pack il N k (repeat (0, false) n) acc = acc.
Proof.
  induction n as [|n IH]; intros k acc; cbn [repeat pack]; [reflexivity|].
  now rewrite lane_word_zero, Z.lor_0_r, IH.
Qed.

Lemma pack_from il N i lanes :
  pack il N i lanes 0 = pack il N 0 (repeat (0, false) i ++ lanes) 0.
Proof.
  now rewrite pack_app, pack_zeros, repeat_length.
Qed.

(** X1: [__setitem__] raises [IndexError] exactly when the index is not
    below the width of the bus.  A write within the width succeeds, leaves
    the width and the layout as they are, and never clears a bit that was
    set before. *)
Theorem setitem_bounds :
  forall (self : _XGMIIBus) (index : nat) (lane : Z * bool),
    (__setitem__ self index lane = IndexError
     <-> (_nbytes self <= index)%nat) /\
    ((index < _nbytes self)%nat ->
     exists self' : _XGMIIBus,
       __setitem__ self index lane = Ok self' /\
       _nbytes self' = _nbytes self /\
       _interleaved self' = _interleaved self /\
       forall j : Z,
         Z.testbit (_integer self) j = true ->
         Z.testbit (_integer self') j = true).
Proof.
  intros self index lane. split.
  - split.
    + intros E. destruct (Nat.le_gt_cases (_nbytes self) index) as [|Hlt];
        [assumption|].
      rewrite setitem_ok in E by assumption. discriminate.
    + intros H. unfold __setitem__. destruct lane as [b c].
      destruct (Nat.leb_spec (_nbytes self) index); [reflexivity|lia].
  - intros H. eexists. split; [now apply setitem_ok|].
    cbn [with_integer _nbytes _interleaved _integer]. repeat split.
    intros j Hj. now rewrite Z.lor_spec, Hj.
Qed.

Lemma setitem_bounds_witness :
  __setitem__ (new_bus 4 true) 4 (0x07, true) = IndexError /\
  exists self' : _XGMIIBus,
    __setitem__ (new_bus 4 true) 3 (0x07, true) = Ok self' /\
    _nbytes self' = 4%nat.
Proof.
  split.
  - apply (proj1 (setitem_bounds (new_bus 4 true) 4 (0x07, true))).
    cbn; lia.
  - destruct (proj2 (setitem_bounds (new_bus 4 true) 3 (0x07, true)))
      as (s & E & Hn & _); [cbn; lia|].
    exists s. split; assumption.
Defined.

(** X2: writes to the lanes of a bus commute: writing lane i and then lane j
    leaves the bus in the same state as writing lane j and then lane i. *)
Theorem setitem_commutes :
  forall (self : _XGMIIBus) (i j : nat) (a b : Z * bool),
    (i < _nbytes self)%nat -> (j < _nbytes self)%nat ->
    (s <- __setitem__ self i a ;; __setitem__ s j b)
    = (s <- __setitem__ self j b ;; __setitem__ s i a).
Proof.
  intros self i j a b Hi Hj.
  rewrite (setitem_ok self i) by assumption.
  rewrite (setitem_ok self j) by assumption. cbn [bind].
  rewrite !setitem_ok by (cbn; assumption).
  cbn [with_integer _integer _interleaved _nbytes]. unfold with_integer.
  cbn [_interleaved _nbytes]. do 2 f_equal.
  rewrite <- !Z.lor_assoc. f_equal. apply Z.lor_comm.
Qed.

Lemma setitem_commutes_witness :
  (s <- __setitem__ (new_bus 4 false) 0 (0xFD, true) ;;
   __setitem__ s 3 (0x07, true))
  = (s <- __setitem__ (new_bus 4 false) 3 (0x07, true) ;;
     __setitem__ s 0 (0xFD, true)).
Proof.
  apply (setitem_commutes (new_bus 4 false) 0 3); cbn; lia.
Defined.

(** X3: a freshly constructed driver of any width and layout has awaited no
    edge, holds a cleared bus, and drives a word that unpacks to
    (IDLE, control) on every lane. *)
Theorem driver_init_idles :
  forall (N : nat) (il : bool),
    exists d : Driver,
      driver_init N il = Ok d /\
      bus d = new_bus N il /\
      edges d = [] /\
      _get_bytes N il (signal d) = (repeat true N, repeat _XGMII_IDLE N).
Proof.
  intros N il. unfold driver_init, new_bus. rewrite idle_ok.
  eexists. split; [reflexivity|]. cbn [bus edges signal].
  repeat split.
  rewrite get_bytes_word_of
    by (apply idle_lanes_u8 || (unfold idle_lanes; apply repeat_length)).
  unfold idle_lanes. now rewrite !map_repeat.
Qed.

(** X4: [terminate] raises [IndexError] for a lane index that is not below
    the width.  On a cleared bus and for an index below the width it
    succeeds, and the word then read from the bus unpacks to byte 0 without
    control flag on the lanes below the index, (TERMINATE, control) on the
    lane of the index and (IDLE, control) on every lane above it. *)
Theorem terminate_word :
  forall (self : Driver) (index : nat),
    let N := _nbytes (bus self) in
    let il := _interleaved (bus self) in
    ((N <= index)%nat -> terminate self index = IndexError) /\
    ((index < N)%nat -> _integer (bus self) = 0 ->
     exists d : Driver,
       terminate self index = Ok d /\
       _get_bytes N il (signal (drive d))
       = (repeat false index ++ repeat true (N - index),
          repeat 0 index
            ++ _XGMII_TERMINATE :: repeat _XGMII_IDLE (N - 1 - index))).
Proof.
  intros [[acc il N] sig eds] index. cbn [bus _nbytes _interleaved _integer].
  split.
  - intros H. unfold terminate. cbn [bus]. unfold __setitem__.
    cbn [_nbytes]. destruct (Nat.leb_spec N index); [reflexivity|lia].
  - intros H ->. rewrite terminate_ok by assumption.
    eexists. split; [reflexivity|]. rewrite drive_ok. cbn [signal].
    rewrite pack_from. fold (word_of il N
      (repeat (0, false) index
         ++ (_XGMII_TERMINATE, true) :: idle_lanes (N - 1 - index))).
    rewrite get_bytes_word_of.
    + rewrite !map_app. cbn [map fst snd]. unfold idle_lanes.
      rewrite !map_repeat. cbn [fst snd]. f_equal.
      f_equal. replace (N - index)%nat with (S (N - 1 - index)) by lia.
      reflexivity.
    + rewrite length_app, repeat_length. cbn [length]. unfold idle_lanes.
      rewrite repeat_length. lia.
    + apply Forall_app. split.
      * apply Forall_forall. intros x Hx. apply repeat_spec in Hx. subst x.
        cbn. unfold u8; lia.
      * constructor; [cbn; unfold u8, _XGMII_TERMINATE; lia|].
        apply idle_lanes_u8.
Qed.

Lemma terminate_word_witness :
  terminate (mkDriver (new_bus 4 true) 0 []) 4 = IndexError /\
  exists d : Driver,
    terminate (mkDriver (new_bus 4 true) 0 []) 1 = Ok d /\
    _get_bytes 4 true (signal (drive d))
    = ([false; true; true; true], [0; 0xFD; 0x07; 0x07]).
Proof.
  split.
  - apply (proj1 (terminate_word (mkDriver (new_bus 4 true) 0 []) 4)).
    cbn; lia.
  - destruct (proj2 (terminate_word (mkDriver (new_bus 4 true) 0 []) 1))
      as (d & E & G); [cbn; lia|reflexivity|].
    exists d. split; assumption.
Defined.

(** X5: whatever value the signal carries, [_get_bytes] returns one control
    flag and one byte per lane, and every byte lies in 0..255, so that it can
    be appended to the [bytearray] of the monitor. *)
Theorem get_bytes_shape :
  forall (N : nat) (il : bool) (v : Z),
    length (fst (_get_bytes N il v)) = N /\
    length (snd (_get_bytes N il v)) = N /\
    Forall u8 (snd (_get_bytes N il v)).
Proof.
  intros N il v. rewrite get_bytes_spec. cbn [fst snd].
  rewrite !length_map, !length_seq. repeat split.
  apply Forall_map. apply Forall_forall. intros i _. apply land_255_u8.
Qed.

(** * Further properties of the driver *)

Lemma layer1_length_eq pkt :
  length (layer1 pkt) = (Nat.max 60 (length pkt) + 11)%nat.
Proof.
  rewrite layer1_wire. unfold WireFrame, CRC32_le.
  rewrite !length_app, length_map, PaddedPayload_length. cbn [length]. lia.
Qed.

Lemma start_fold_error pkt l :
  fold_left
    (fun (acc : result _XGMIIBus) (i : nat) =>
       b <- acc ;;
       byte <- index pkt (i - 1) ;;
       __setitem__ b i (byte, false))
    l IndexError
  = IndexError.
Proof. induction l as [|i l IH]; cbn [fold_left bind]; auto. Qed.

Lemma index_out_of_range (l : list Z) i :
  (length l <= i)%nat -> index l i = IndexError.
Proof.
  intros H. unfold index. now rewrite (proj2 (nth_error_None l i) H).
Qed.

Lemma driver_send_zero_width acc il sig eds pkt sync :
  _driver_send (mkDriver (mkBus acc il 0) sig eds) pkt sync = IndexError.
Proof. destruct sync; reflexivity. Qed.

Lemma driver_send_too_wide acc il N sig eds pkt sync :
  (length (layer1 pkt) + 1 < N)%nat ->
  _driver_send (mkDriver (mkBus acc il N) sig eds) pkt sync = IndexError.
Proof.
  intros H.
  assert (forall eds',
            _driver_send (mkDriver (mkBus acc il N) sig eds') pkt false
            = IndexError) as Hns.
  { intros eds'. unfold _driver_send. cbv zeta. cbn [bus].
    rewrite setitem_mk by lia. cbn [bind _nbytes].
    replace (N - 1)%nat
      with (length (layer1 pkt) + S (N - 2 - length (layer1 pkt)))%nat by lia.
    rewrite seq_app, fold_left_app, start_fold by lia.
    cbn [seq fold_left bind].
    rewrite index_out_of_range by lia. cbn [bind].
    now rewrite start_fold_error. }
  destruct sync; [|apply Hns].
  change (_driver_send (mkDriver (mkBus acc il N) sig eds) pkt true)
    with (_driver_send (mkDriver (mkBus acc il N) sig (eds ++ [sig])) pkt false).
  apply Hns.
Qed.

Lemma transmit_ok_gen il N pkt sync :
  (1 <= N <= length (layer1 pkt) + 1)%nat ->
  transmit N il pkt sync
  = Ok (map (word_of il N) (transmit_lanes N (layer1 pkt) sync)).
Proof.
  intros HN. unfold transmit, driver_init, new_bus.
  rewrite idle_ok. cbn [bind].
  rewrite driver_send_ok by lia.
  cbn [bind edges app]. unfold transmit_lanes. cbv zeta.
  rewrite !map_app. destruct sync; reflexivity.
Qed.

Lemma frame_lanes_length N fuel pkt :
  (1 <= N)%nat -> (length pkt <= fuel)%nat ->
  length (frame_lanes fuel N pkt) = (length pkt / N + 1)%nat.
Proof.
  intros HN Hf.
  destruct (frame_lanes_split N HN fuel pkt Hf)
    as (chunks & tail & E & _ & _ & Ht & Hn).
  rewrite E, length_app, length_map, Hn. cbn [length].
  rewrite Nat.div_add_l, Nat.div_small by lia. lia.
Qed.

(** X6: a transmission succeeds exactly when the bus has at least one lane
    and the start word has room for no more than the whole wire frame: with
    no lane, or with more than [max 60 (len pkt) + 12] lanes, [_driver_send]
    raises [IndexError]; for every width in between it returns. *)
Theorem transmit_raises_iff :
  forall (N : nat) (il : bool) (pkt : list Z) (sync : bool),
    (transmit N il pkt sync = IndexError
     <-> (N = 0 \/ Nat.max 60 (length pkt) + 12 < N)%nat) /\
    ((exists words, transmit N il pkt sync = Ok words)
     <-> (1 <= N <= Nat.max 60 (length pkt) + 12)%nat).
Proof.
  intros N il pkt sync.
  pose proof (layer1_length_eq pkt) as L.
  destruct (Nat.eq_dec N 0) as [->|Hz].
  - assert (transmit 0 il pkt sync = IndexError) as E.
    { unfold transmit, driver_init, new_bus. rewrite idle_ok. cbn [bind].
      now rewrite driver_send_zero_width. }
    rewrite E. split; split; try lia; auto.
    intros [w Hw]. discriminate.
  - destruct (Nat.le_gt_cases N (Nat.max 60 (length pkt) + 12)) as [Hle|Hgt].
    + rewrite transmit_ok_gen by lia. split; split; try lia.
      * discriminate.
      * intros _. eexists. reflexivity.
    + assert (transmit N il pkt sync = IndexError) as E.
      { unfold transmit, driver_init, new_bus. rewrite idle_ok. cbn [bind].
        now rewrite driver_send_too_wide by lia. }
      rewrite E. split; split; try lia; auto.
      intros [w Hw]. discriminate.
Qed.

(** X7: the number of rising edges of a transmission.  For a width for which
    the transmission succeeds, with R the number of wire-frame bytes left
    after the start word, the driver awaits one edge for the start word,
    [R / N] edges for full data words, one edge for the terminating word and
    one for the closing idle word, plus one edge first when [sync] is
    set. *)
Theorem transmit_edge_count :
  forall (N : nat) (il : bool) (pkt : list Z) (sync : bool),
    (1 <= N <= Nat.max 60 (length pkt) + 12)%nat ->
    exists words : list Z,
      transmit N il pkt sync = Ok words /\
      length words
      = ((if sync then 1 else 0)
         + (Nat.max 60 (length pkt) + 11 - (N - 1)) / N + 3)%nat.
Proof.
  intros N il pkt sync HN.
  pose proof (layer1_length_eq pkt) as L.
  rewrite transmit_ok_gen by lia. eexists. split; [reflexivity|].
  rewrite length_map. unfold transmit_lanes. cbv zeta.
  rewrite !length_app, frame_lanes_length by lia.
  rewrite length_skipn, L. destruct sync; cbn [length]; lia.
Qed.

Lemma transmit_edge_count_witness :
  exists words : list Z,
    transmit 4 true [0xAA] false = Ok words /\ length words = 20%nat.
Proof.
  destruct (transmit_edge_count 4 true [0xAA] false) as (w & E & L).
  - cbn; lia.
  - exists w. split; [exact E|]. rewrite L. reflexivity.
Defined.

(** X8: the [sync] flag costs exactly one rising edge and changes nothing
    else: for every width, the edges of a transmission with [sync] are the
    idle word the driver was holding, followed by the edges of the same
    transmission without [sync]; and the one raises when the other does. *)
Theorem sync_adds_one_idle_edge :
  forall (N : nat) (il : bool) (pkt : list Z),
    transmit N il pkt true
    = (words <- transmit N il pkt false ;;
       Ok (word_of il N (idle_lanes N) :: words)).
Proof.
  intros N il pkt.
  destruct (Nat.eq_dec N 0) as [->|Hz].
  - unfold transmit, driver_init, new_bus. rewrite idle_ok. cbn [bind].
    now rewrite !driver_send_zero_width.
  - destruct (Nat.le_gt_cases N (length (layer1 pkt) + 1)) as [Hle|Hgt].
    + rewrite !transmit_ok_gen by lia. reflexivity.
    + unfold transmit, driver_init, new_bus. rewrite idle_ok. cbn [bind].
      now rewrite !driver_send_too_wide by lia.
Qed.

(** X9: where the terminate symbol goes, for every remainder.  With [rest]
    the wire-frame bytes left after the start word, the words after the start
    word are [length rest / N] full data words carrying [rest] in order,
    then one word with the last [length rest mod N] bytes, (TERMINATE,
    control) on lane [length rest mod N] and (IDLE, control) on the lanes
    above it, then the closing idle word. *)
Theorem terminate_lane_position :
  forall (N : nat) (il : bool) (raw : list Z) (sync : bool),
    (1 <= N <= Nat.max 60 (length raw) + 12)%nat ->
    let wire := layer1 raw in
    let rest := skipn (N - 1) wire in
    exists (chunks : list (list Z)) (tail : list Z),
      Forall (fun c => length c = N) chunks /\
      length chunks = (length rest / N)%nat /\
      length tail = (length rest mod N)%nat /\
      concat chunks ++ tail = rest /\
      transmit N il raw sync
      = Ok (map (word_of il N)
              ((if sync then [idle_lanes N] else [])
                 ++ [start_lanes N wire]
                 ++ map data_lanes chunks
                 ++ [data_lanes tail
                       ++ (_XGMII_TERMINATE, true)
                            :: idle_lanes (N - 1 - length tail);
                     idle_lanes N])).
Proof.
  intros N il raw sync HN wire rest.
  pose proof (layer1_length_eq raw) as L.
  assert (1 <= N)%nat as HN1 by lia.
  destruct (frame_lanes_split N HN1 (length rest) rest (le_n _))
    as (chunks & tail & E & Hc & Hf & Ht & Hn).
  exists chunks, tail. repeat split; try assumption.
  - rewrite Hn, Nat.div_add_l, Nat.div_small by lia. lia.
  - rewrite Hn, Nat.add_comm, Nat.Div0.mod_add, Nat.mod_small by lia.
    reflexivity.
  - rewrite transmit_ok_gen by lia. unfold transmit_lanes. cbv zeta.
    fold wire. fold rest. rewrite E. unfold term_lanes.
    now rewrite <- !app_assoc.
Qed.

Lemma terminate_lane_position_witness :
  exists (chunks : list (list Z)) (tail : list Z),
    length chunks = 8%nat /\ length tail = 0%nat /\
    transmit 8 false [0xAA] false
    = Ok (map (word_of false 8)
            ([start_lanes 8 (layer1 [0xAA])]
               ++ map data_lanes chunks
               ++ [data_lanes tail
                     ++ (_XGMII_TERMINATE, true)
                          :: idle_lanes (8 - 1 - length tail);
                   idle_lanes 8])).
Proof.
  destruct (terminate_lane_position 8 false [0xAA] false)
    as (chunks & tail & _ & Hc & Ht & _ & E).
  - cbn; lia.
  - exists chunks, tail. split; [|split; [|exact E]].
    + rewrite Hc. vm_compute. reflexivity.
    + rewrite Ht. vm_compute. reflexivity.
Defined.

(** * Further properties of the monitor *)

Lemma add_payload_facts bs : forall ctrl self,
  (length bs <= length ctrl)%nat ->
  exists more self',
    _add_payload self ctrl bs = Ok (more, self') /\
    bytes self' = bytes self /\
    interleaved self' = interleaved self /\
    received self' = received self /\
    (exists es, errors self' = errors self ++ es) /\
    (Forall u8 bs -> Forall u8 (_pkt self) -> Forall u8 (_pkt self')).
Proof.
  induction bs as [|b bs IH]; intros ctrl self Hlen; cbn [_add_payload].
  - exists true, self. repeat split; auto.
    exists []. now rewrite app_nil_r.
  - destruct ctrl as [|c ctrl]; [cbn in Hlen; lia|].
    destruct c.
    + destruct (b =? _XGMII_TERMINATE); cbn [negb].
      * exists false, self. repeat split; auto.
        exists []. now rewrite app_nil_r.
      * eexists false, _. split; [reflexivity|]. cbn. repeat split; auto.
        now exists [ControlCharacterInPayload].
    + destruct (IH ctrl (with_pkt self (_pkt self ++ [b])))
        as (more & self' & E & Hb & Hi & Hr & He & Hu);
        [cbn in Hlen; lia|].
      exists more, self'. split; [exact E|]. repeat split; auto.
      intros Hbs Hp. inversion Hbs; subst. apply Hu; [assumption|].
      cbn. apply Forall_app. split; [assumption|]. now constructor.
Qed.

Lemma deliver_facts self :
  bytes (deliver self) = bytes self /\
  interleaved (deliver self) = interleaved self /\
  _pkt (deliver self) = [] /\
  (exists es, errors (deliver self) = errors self ++ es) /\
  (received (deliver self) = received self \/
   (12 <= length (_pkt self))%nat /\
   received (deliver self)
   = received self
       ++ [skipn 7 (firstn (length (_pkt self) - 4) (_pkt self))]).
Proof.
  destruct (Nat.le_gt_cases 12 (length (_pkt self))) as [H12|H12].
  - rewrite deliver_long by assumption. cbv zeta.
    destruct (length (_pkt self) <? 64 + 7)%nat;
      destruct (negb (list_eqb (firstn 7 (_pkt self)) _PREAMBLE_SFD));
      try destruct (negb (list_eqb _ _));
      cbn; repeat split; auto;
      try (eexists; rewrite <- ?app_assoc; reflexivity);
      try (exists []; now rewrite app_nil_r).
  - unfold deliver. destruct (_pkt self) as [|x l] eqn:E.
    + repeat split; auto. exists []. now rewrite app_nil_r.
    + destruct (Nat.ltb_spec (length (x :: l)) 12); [|lia].
      destruct (length (x :: l) <? 64 + 7)%nat; cbn; repeat split; auto;
        eexists; rewrite <- ?app_assoc; reflexivity.
Qed.

Lemma accumulate_facts self ctrl bs :
  (length bs <= length ctrl)%nat -> Forall u8 bs ->
  exists self' mode',
    accumulate self ctrl bs = Ok (self', mode') /\ edge_post self self' mode'.
Proof.
  intros Hlen Hu.
  destruct (add_payload_facts bs ctrl self Hlen)
    as (more & s1 & E & Hb & Hi & Hr & (es & He) & Hp).
  unfold accumulate. rewrite E. cbn [bind].
  destruct more.
  - exists s1, ACCUMULATING. split; [reflexivity|]. unfold edge_post.
    repeat split; auto; [discriminate|now exists es].
  - exists (deliver s1), SCANNING. split; [reflexivity|].
    destruct (deliver_facts s1) as (Db & Di & Dp & (es' & De) & Dr).
    unfold edge_post. repeat split; try congruence.
    + intros _. rewrite Dp. constructor.
    + exists (es ++ es'). now rewrite De, He, app_assoc.
    + destruct Dr as [Dr|[H12 Dr]]; [left; congruence|].
      right. eexists. split; [rewrite Dr, Hr; reflexivity|]. split.
      * rewrite length_skipn, length_firstn. lia.
      * intros Hpk. specialize (Hp Hu Hpk).
        apply Forall_firstn_skipn. now apply Forall_firstn_skipn.
Qed.

Lemma deliver_edge_post self :
  edge_post self (deliver self) SCANNING.
Proof.
  destruct (deliver_facts self) as (Db & Di & Dp & De & Dr).
  unfold edge_post. repeat split; auto.
  - intros _. rewrite Dp. constructor.
  - destruct Dr as [Dr|[H12 Dr]]; [now left|].
    right. eexists. split; [exact Dr|]. split.
    + rewrite length_skipn, length_firstn. lia.
    + intros Hpk. apply Forall_firstn_skipn. now apply Forall_firstn_skipn.
Qed.

Lemma get_bytes_u8 N il v ctrl bs :
  _get_bytes N il v = (ctrl, bs) -> Forall u8 bs.
Proof.
  rewrite get_bytes_spec. intros E. inversion E; subst.
  apply Forall_map. apply Forall_forall. intros i _. apply land_255_u8.
Qed.

Lemma monitor_edge_facts self mode word :
  (1 <= bytes self)%nat ->
  exists self' mode',
    monitor_edge self mode word = Ok (self', mode') /\
    edge_post self self' mode'.
Proof.
  intros HN. unfold monitor_edge.
  destruct (_get_bytes (bytes self) (interleaved self) word)
    as [ctrl bs] eqn:Hg.
  destruct (get_bytes_length _ _ _ _ _ Hg) as [Lc Lb].
  pose proof (get_bytes_u8 _ _ _ _ _ Hg) as Hu.
  destruct mode.
  - destruct ctrl as [|c0 ctrl]; [cbn in Lc; lia|].
    destruct bs as [|b0 bs]; [cbn in Lb; lia|].
    cbn [index nth_error bind skipn].
    inversion Hu as [|? ? Hu0 Hu']; subst.
    destruct (c0 && (b0 =? _XGMII_START)).
    + apply accumulate_facts; [cbn in *; lia|assumption].
    + destruct (Nat.eqb_spec (bytes self) 8) as [E8|_].
      * rewrite E8 in Lc, Lb.
        destruct ctrl as [|c1 [|c2 [|c3 [|c4 ctrl]]]]; try discriminate.
        destruct bs as [|b1 [|b2 [|b3 [|b4 bs]]]]; try discriminate.
        cbn [index nth_error bind skipn].
        destruct (c4 && (b4 =? _XGMII_START)).
        -- apply accumulate_facts; [cbn in *; lia|].
           now do 4 (inversion Hu' as [|? ? _ Hu'']; subst; clear Hu';
                     rename Hu'' into Hu').
        -- do 2 eexists. split; [reflexivity|apply deliver_edge_post].
      * do 2 eexists. split; [reflexivity|apply deliver_edge_post].
  - apply accumulate_facts; [lia|assumption].
Qed.

Lemma monitor_recv_facts words : forall self mode,
  (1 <= bytes self)%nat ->
  (mode = SCANNING -> _pkt self = []) ->
  Forall u8 (_pkt self) ->
  exists m mode',
    _monitor_recv self mode words = Ok (m, mode') /\
    bytes m = bytes self /\
    interleaved m = interleaved self /\
    (mode' = SCANNING -> _pkt m = []) /\
    Forall u8 (_pkt m) /\
    (exists es, errors m = errors self ++ es) /\
    exists new,
      received m = received self ++ new /\
      (length new <= length words)%nat /\
      Forall (fun p => (1 <= length p)%nat /\ Forall u8 p) new.
Proof.
  induction words as [|w words IH]; intros self mode HN Hs Hu;
    cbn [_monitor_recv].
  - exists self, mode. repeat split; auto.
    + exists []. now rewrite app_nil_r.
    + exists []. rewrite app_nil_r. repeat split; auto.
  - destruct (monitor_edge_facts self mode w HN)
      as (s1 & m1 & E & Hb & Hi & Hp & Hu1 & (es1 & He) & Hr).
    rewrite E. cbn [bind].
    destruct (IH s1 m1) as (m & mode' & E' & Hb' & Hi' & Hp' & Hu' &
                            (es2 & He') & new & Hr' & Hl & Hf);
      [lia|assumption|auto|].
    exists m, mode'. split; [exact E'|].
    repeat split; try congruence; auto.
    + exists (es1 ++ es2). now rewrite He', He, app_assoc.
    + destruct Hr as [Hr|(p & Hr & Hp1 & Hp2)].
      * exists new. rewrite Hr', Hr.
        split; [reflexivity|]. split; [cbn [length]; lia|assumption].
      * exists (p :: new). rewrite Hr', Hr, <- app_assoc.
        split; [reflexivity|]. split; [cbn [length]; lia|].
        constructor; auto.
Qed.

(** X10: in a monitor with at least one lane no list index is ever out of
    range: whatever values the signal carries at the rising edges, the reads
    [ctrl[0]], [bytes[0]], [ctrl[4]], [bytes[4]] of [_monitor_recv] and
    [ctrl[index]] of [_add_payload] never raise [IndexError].  The monitor
    keeps its width and layout, and whenever it is back at the outer [await]
    (scanning) its buffer [_pkt] is empty. *)
Theorem monitor_no_index_error :
  forall (N : nat) (il : bool) (words : list Z),
    (1 <= N)%nat ->
    exists (m : Monitor) (mode : Mode),
      _monitor_recv (monitor_init N il) SCANNING words = Ok (m, mode) /\
      bytes m = N /\
      interleaved m = il /\
      (mode = SCANNING -> _pkt m = []).
Proof.
  intros N il words HN.
  destruct (monitor_recv_facts words (monitor_init N il) SCANNING)
    as (m & mode & E & Hb & Hi & Hp & _); cbn; auto.
  exists m, mode. repeat split; assumption.
Qed.

Lemma monitor_no_index_error_witness :
  exists (m : Monitor) (mode : Mode),
    _monitor_recv (monitor_init 4 true) SCANNING [0; 0x1FB; -1; 12345]
    = Ok (m, mode) /\
    bytes m = 4%nat.
Proof.
  destruct (monitor_no_index_error 4 true [0; 0x1FB; -1; 12345])
    as (m & mode & E & Hb & _); [lia|].
  exists m, mode. split; assumption.
Defined.

(** X11: a monitor on a signal too narrow for one lane raises [IndexError]
    at its first rising edge, when it reads the control flag of lane 0. *)
Theorem monitor_zero_lanes_raises :
  forall (il : bool) (word : Z) (words : list Z),
    _monitor_recv (monitor_init 0 il) SCANNING (word :: words) = IndexError.
Proof. intros il word words. reflexivity. Qed.

(** X12: the monitor hands the caller at most one payload per rising edge:
    in every state it reaches from its start, on a bus of at least one lane,
    the next edge leaves the payloads received as they are or appends exactly
    one.  Every payload it has handed over is non-empty and made of bytes in
    0..255. *)
Theorem monitor_deliveries :
  forall (N : nat) (il : bool) (words : list Z) (word : Z),
    (1 <= N)%nat ->
    exists (m m' : Monitor) (mode mode' : Mode),
      _monitor_recv (monitor_init N il) SCANNING words = Ok (m, mode) /\
      monitor_edge m mode word = Ok (m', mode') /\
      (received m' = received m \/
       exists p : list Z, received m' = received m ++ [p]) /\
      Forall (fun p => (1 <= length p)%nat /\ Forall u8 p) (received m').
Proof.
  intros N il words word HN.
  destruct (monitor_recv_facts words (monitor_init N il) SCANNING)
    as (m & mode & E & Hb & _ & _ & Hu & _ & new & Hr & _ & Hf); cbn; auto.
  cbn in Hr, Hb.
  destruct (monitor_edge_facts m mode word) as (m' & mode' & E' & Hpost);
    [lia|].
  destruct Hpost as (_ & _ & _ & _ & _ & Hrec).
  exists m, m', mode, mode'. split; [exact E|]. split; [exact E'|].
  destruct Hrec as [Hrec|(p & Hrec & Hp1 & Hp2)].
  - split; [now left|]. now rewrite Hrec, Hr.
  - split; [right; now exists p|].
    rewrite Hrec, Hr. apply Forall_app. split; [assumption|].
    constructor; [|constructor]. split; [assumption|now apply Hp2].
Qed.

Lemma monitor_deliveries_witness :
  exists (m m' : Monitor) (mode mode' : Mode),
    _monitor_recv (monitor_init 8 false) SCANNING [0; 0x1FB; -1]
    = Ok (m, mode) /\
    monitor_edge m mode 0x1FD = Ok (m', mode') /\
    (received m' = received m \/
     exists p : list Z, received m' = received m ++ [p]).
Proof.
  destruct (monitor_deliveries 8 false [0; 0x1FB; -1] 0x1FD)
    as (m & m' & mode & mode' & E & E' & Hr & _); [lia|].
  exists m, m', mode, mode'. repeat split; assumption.
Defined.

(** X14: while scanning with an empty buffer, a word that carries
    (START, control) neither on lane 0 nor, on an 8-lane bus, on lane 4 is
    discarded: the monitor is left exactly as it was. *)
Theorem scanning_ignores_other_words :
  forall (self : Monitor) (word : Z) (ctrl : list bool) (bs : list Z),
    (1 <= bytes self)%nat ->
    _pkt self = [] ->
    _get_bytes (bytes self) (interleaved self) word = (ctrl, bs) ->
    nth 0 ctrl false && (nth 0 bs 0 =? _XGMII_START) = false ->
    (bytes self = 8%nat ->
     nth 4 ctrl false && (nth 4 bs 0 =? _XGMII_START) = false) ->
    monitor_edge self SCANNING word = Ok (self, SCANNING).
Proof.
  intros self word ctrl bs HN Hp Hg H0 H4.
  unfold monitor_edge. rewrite Hg.
  destruct (get_bytes_length _ _ _ _ _ Hg) as [Lc Lb].
  destruct ctrl as [|c0 ctrl]; [cbn in Lc; lia|].
  destruct bs as [|b0 bs]; [cbn in Lb; lia|].
  cbn in H0. cbn [index nth_error bind]. rewrite H0.
  rewrite (deliver_empty self Hp).
  destruct (Nat.eqb_spec (bytes self) 8) as [E8|_]; [|reflexivity].
  specialize (H4 E8). rewrite E8 in Lc, Lb.
  destruct ctrl as [|c1 [|c2 [|c3 [|c4 ctrl]]]]; try discriminate.
  destruct bs as [|b1 [|b2 [|b3 [|b4 bs]]]]; try discriminate.
  cbn in H4. cbn [index nth_error bind]. now rewrite H4.
Qed.

Lemma scanning_ignores_other_words_witness :
  monitor_edge (monitor_init 8 true) SCANNING
    (word_of true 8
       [(0x07, true); (0x55, false); (0xFB, false); (0xFB, true);
        (0xFD, true); (0x07, true); (0x07, true); (0x07, true)])
  = Ok (monitor_init 8 true, SCANNING).
Proof.
  apply (scanning_ignores_other_words (monitor_init 8 true) _
           [true; false; false; true; true; true; true; true]
           [0x07; 0x55; 0xFB; 0xFB; 0xFD; 0x07; 0x07; 0x07]);
    try reflexivity.
  cbn; lia.
Defined.

(** X15: while scanning, a word with (START, control) on lane 0 starts a
    frame on a bus of any width, whatever lane 4 carries: the lanes after
    lane 0 are handed to the accumulation of payload, and when they are all
    data lanes their bytes are appended in lane order and the monitor goes
    on accumulating. *)
Theorem start_at_lane_0 :
  forall (self : Monitor) (word : Z) (ctrl : list bool) (bs : list Z),
    (1 <= bytes self)%nat ->
    _get_bytes (bytes self) (interleaved self) word = (ctrl, bs) ->
    nth 0 ctrl false = true ->
    nth 0 bs 0 = _XGMII_START ->
    monitor_edge self SCANNING word
    = accumulate self (skipn 1 ctrl) (skipn 1 bs) /\
    ((forall j, (1 <= j < bytes self)%nat -> nth j ctrl false = false) ->
     monitor_edge self SCANNING word
     = Ok (with_pkt self (_pkt self ++ skipn 1 bs), ACCUMULATING)).
Proof.
  intros self word ctrl bs HN Hg H0c H0b.
  destruct (get_bytes_length _ _ _ _ _ Hg) as [Lc Lb].
  destruct ctrl as [|c0 ctrl]; [cbn in Lc; lia|].
  destruct bs as [|b0 bs]; [cbn in Lb; lia|].
  cbn in H0c, H0b. subst c0 b0.
  assert (monitor_edge self SCANNING word
          = accumulate self ctrl bs) as Hedge.
  { unfold monitor_edge. rewrite Hg. cbn [index nth_error bind skipn].
    rewrite Z.eqb_refl. reflexivity. }
  split; [exact Hedge|].
  intros Hd. rewrite Hedge. cbn [skipn]. unfold accumulate.
  rewrite add_payload_data.
  - reflexivity.
  - cbn in Lc, Lb. lia.
  - intros j Hj. apply (Hd (S j)). cbn in Lb. lia.
Qed.

Lemma start_at_lane_0_witness :
  monitor_edge (monitor_init 4 false) SCANNING
    (word_of false 4 [(0xFB, true); (0x55, false); (0x55, false); (0x55, false)])
  = Ok (with_pkt (monitor_init 4 false) [0x55; 0x55; 0x55], ACCUMULATING).
Proof.
  refine (proj2 (start_at_lane_0 (monitor_init 4 false) _
                   [true; false; false; false] [0xFB; 0x55; 0x55; 0x55]
                   _ _ _ _) _); try reflexivity.
  - cbn; lia.
  - intros [|[|[|[|j]]]] Hj; cbn in *; try reflexivity; lia.
Defined.

(** X16: while accumulating, a word with no control flag set appends the
    bytes of all its lanes to the buffer in lane order, hands nothing over,
    logs nothing, and leaves the monitor accumulating. *)
Theorem data_word_accumulates :
  forall (self : Monitor) (word : Z) (ctrl : list bool) (bs : list Z),
    _get_bytes (bytes self) (interleaved self) word = (ctrl, bs) ->
    (forall j, (j < bytes self)%nat -> nth j ctrl false = false) ->
    monitor_edge self ACCUMULATING word
    = Ok (with_pkt self (_pkt self ++ bs), ACCUMULATING).
Proof.
  intros self word ctrl bs Hg Hd.
  destruct (get_bytes_length _ _ _ _ _ Hg) as [Lc Lb].
  unfold monitor_edge. rewrite Hg. unfold accumulate.
  rewrite add_payload_data; [reflexivity|congruence|].
  intros j Hj. apply Hd. lia.
Qed.

Lemma data_word_accumulates_witness :
  monitor_edge (with_pkt (monitor_init 4 true) [0x55]) ACCUMULATING
    (word_of true 4 [(1, false); (2, false); (3, false); (0xFD, false)])
  = Ok (with_pkt (monitor_init 4 true) [0x55; 1; 2; 3; 0xFD], ACCUMULATING).
Proof.
  apply (data_word_accumulates (with_pkt (monitor_init 4 true) [0x55]) _
           [false; false; false; false] [1; 2; 3; 0xFD]).
  - reflexivity.
  - intros [|[|[|[|j]]]] Hj; cbn in *; try reflexivity; lia.
Defined.

Lemma deliver_short self :
  (1 <= length (_pkt self) < 12)%nat ->
  deliver self
  = with_pkt (log_error (log_error self RuntFrame) NoDataToExtract) [].
Proof.
  intros H. unfold deliver.
  destruct (_pkt self) as [|x l] eqn:E; [cbn in H; lia|].
  destruct (Nat.ltb_spec (length (x :: l)) (64 + 7)); [|cbn in *; lia].
  destruct (Nat.ltb_spec (length (x :: l)) 12); [reflexivity|lia].
Qed.

Lemma deliver_framed N il payload e r :
  (1 <= length payload)%nat ->
  deliver
    (mkMonitor N il
       (_PREAMBLE_SFD ++ payload ++ CRC32_le (crc32 payload)) e r)
  = mkMonitor N il []
      (e ++ (if (length payload <? 60)%nat then [RuntFrame] else []))
      (r ++ [payload]).
Proof.
  intros Hlen.
  assert (length (_PREAMBLE_SFD ++ payload ++ CRC32_le (crc32 payload))
          = length payload + 11)%nat as L.
  { unfold CRC32_le, _PREAMBLE_SFD.
    rewrite !length_app, length_map. cbn [length]. lia. }
  rewrite deliver_long by (cbn [_pkt]; lia). cbv zeta. cbn [_pkt].
  assert (length (_PREAMBLE_SFD ++ payload ++ CRC32_le (crc32 payload)) - 4
          = length (_PREAMBLE_SFD ++ payload))%nat as L4.
  { rewrite L. unfold _PREAMBLE_SFD. rewrite length_app. cbn [length]. lia. }
  rewrite L4, L.
  assert (firstn 7 (_PREAMBLE_SFD ++ payload ++ CRC32_le (crc32 payload))
          = _PREAMBLE_SFD) as F1 by reflexivity.
  assert (skipn 7 (_PREAMBLE_SFD ++ payload) = payload) as F2 by reflexivity.
  rewrite F1, list_eqb_refl. cbn [negb].
  rewrite (app_assoc _PREAMBLE_SFD payload).
  rewrite skipn_app, Nat.sub_diag, skipn_all.
  rewrite firstn_app, Nat.sub_diag, firstn_all.
  rewrite firstn_O, skipn_O, app_nil_r, F2. cbn [app].
  rewrite struct_pack_crc, list_eqb_refl. cbn [negb].
  change (64 + 7)%nat with 71%nat.
  destruct (Nat.ltb_spec (length payload + 11) 71),
           (Nat.ltb_spec (length payload) 60); try lia.
  - reflexivity.
  - unfold with_pkt, _recv. cbn. now rewrite app_nil_r.
Qed.

(** X17: the validation of the monitor undoes the framing for every payload
    of at least one byte, padded or not: a buffer that holds the
    preamble/SFD constant, the payload and the little-endian CRC-32 of the
    payload is handed over as exactly the payload and the buffer is cleared;
    the only error logged is the runt-frame error when the payload is
    shorter than 60 bytes. *)
Theorem deliver_inverts_framing :
  forall (self : Monitor) (payload : list Z),
    (1 <= length payload)%nat ->
    _pkt self = _PREAMBLE_SFD ++ payload ++ CRC32_le (crc32 payload) ->
    _pkt (deliver self) = [] /\
    received (deliver self) = received self ++ [payload] /\
    errors (deliver self)
    = errors self ++ (if (length payload <? 60)%nat then [RuntFrame] else []).
Proof.
  intros [N il p e r] payload Hlen Hp. cbn [_pkt] in Hp. subst p.
  rewrite deliver_framed by assumption. repeat split.
Qed.

Lemma deliver_inverts_framing_witness :
  received
    (deliver
       (with_pkt (monitor_init 4 true)
          (_PREAMBLE_SFD ++ [0xAA; 0xBB] ++ CRC32_le (crc32 [0xAA; 0xBB]))))
  = [[0xAA; 0xBB]].
Proof.
  apply (deliver_inverts_framing
           (with_pkt (monitor_init 4 true)
              (_PREAMBLE_SFD ++ [0xAA; 0xBB] ++ CRC32_le (crc32 [0xAA; 0xBB])))
           [0xAA; 0xBB]).
  - cbn; lia.
  - reflexivity.
Defined.

(** X18: a frame that starts and ends within one word is never handed over.
    On a bus of at most 12 lanes, a word seen while scanning with
    (START, control) on lane 0, data on the lanes 1..i-1 and
    (TERMINATE, control) on lane i leaves the monitor scanning with an empty
    buffer and nothing received; it logs nothing when TERMINATE directly
    follows START, and otherwise a runt-frame error and "no data to
    extract". *)
Theorem frame_within_one_word_dropped :
  forall (self : Monitor) (word : Z) (ctrl : list bool) (bs : list Z)
         (i : nat),
    (bytes self <= 12)%nat ->
    _pkt self = [] ->
    _get_bytes (bytes self) (interleaved self) word = (ctrl, bs) ->
    nth 0 ctrl false = true ->
    nth 0 bs 0 = _XGMII_START ->
    (1 <= i < bytes self)%nat ->
    (forall j, (1 <= j < i)%nat -> nth j ctrl false = false) ->
    nth i ctrl false = true ->
    nth i bs 0 = _XGMII_TERMINATE ->
    exists self' : Monitor,
      monitor_edge self SCANNING word = Ok (self', SCANNING) /\
      _pkt self' = [] /\
      received self' = received self /\
      errors self'
      = errors self
          ++ (if (i =? 1)%nat then [] else [RuntFrame; NoDataToExtract]).
Proof.
  intros self word ctrl bs i H12 Hp Hg H0c H0b Hi Hd Hic Hib.
  destruct (get_bytes_length _ _ _ _ _ Hg) as [Lc Lb].
  destruct ctrl as [|c0 ctrl]; [cbn in Lc; lia|].
  destruct bs as [|b0 bs]; [cbn in Lb; lia|].
  cbn in H0c, H0b, Lc, Lb. subst c0 b0.
  destruct i as [|i]; [lia|]. cbn [nth] in Hic, Hib.
  assert (monitor_edge self SCANNING word
          = Ok (deliver (with_pkt self (firstn i bs)), SCANNING)) as Hedge.
  { unfold monitor_edge. rewrite Hg. cbn [index nth_error bind skipn].
    rewrite Z.eqb_refl. cbn [andb]. unfold accumulate.
    rewrite (add_payload_stop bs ctrl self i); try lia; try assumption.
    - rewrite Hib, Z.eqb_refl, Hp. reflexivity.
    - intros j Hj. apply (Hd (S j)). lia. }
  rewrite Hedge. eexists. split; [reflexivity|].
  destruct i as [|i].
  - cbn [firstn Nat.eqb]. rewrite deliver_empty by reflexivity.
    cbn. now rewrite app_nil_r.
  - rewrite deliver_short.
    + cbn. repeat split. now rewrite <- app_assoc.
    + cbn [with_pkt _pkt]. rewrite length_firstn. lia.
Qed.

Lemma frame_within_one_word_dropped_witness :
  exists self' : Monitor,
    monitor_edge (monitor_init 4 true) SCANNING
      (word_of true 4 [(0xFB, true); (0x55, false); (0xFD, true); (0x07, true)])
    = Ok (self', SCANNING) /\
    received self' = [] /\
    errors self' = [RuntFrame; NoDataToExtract].
Proof.
  destruct (frame_within_one_word_dropped (monitor_init 4 true)
              (word_of true 4
                 [(0xFB, true); (0x55, false); (0xFD, true); (0x07, true)])
              [true; false; true; true] [0xFB; 0x55; 0xFD; 0x07] 2)
    as (m & E & _ & Hr & He); try reflexivity.
  - cbn; lia.
  - cbn; lia.
  - intros [|[|j]] Hj; try lia. reflexivity.
  - exists m. repeat split; assumption.
Defined.

Lemma monitor_receives_frame N il raw sync e r :
  (1 <= N <= length (layer1 raw) + 1)%nat -> Forall u8 raw ->
  _monitor_recv (mkMonitor N il [] e r) SCANNING
    (map (word_of il N) (transmit_lanes N (layer1 raw) sync))
  = Ok (mkMonitor N il [] e (r ++ [PaddedPayload raw]), SCANNING).
Proof.
  intros HN Hu. unfold transmit_lanes. cbv zeta.
  pose proof (layer1_u8 raw Hu) as Hw.
  assert (_monitor_recv (mkMonitor N il [] e r) SCANNING
            (map (word_of il N)
               ([start_lanes N (layer1 raw)]
                  ++ frame_lanes (length (skipn (N - 1) (layer1 raw))) N
                       (skipn (N - 1) (layer1 raw))
                  ++ [idle_lanes N]))
          = Ok (mkMonitor N il [] e (r ++ [PaddedPayload raw]), SCANNING))
    as Hrun.
  { rewrite !map_app, monitor_recv_app. cbn [map _monitor_recv].
    rewrite monitor_start_word by (assumption || lia). cbn [bind].
    rewrite monitor_recv_app.
    rewrite monitor_frame_words
      by (lia || apply (Forall_firstn_skipn u8 (layer1 raw) (N - 1) Hw)).
    rewrite firstn_skipn, deliver_wire. cbn [bind app _monitor_recv].
    rewrite monitor_idle_word by lia. reflexivity. }
  destruct sync.
  - rewrite map_app, monitor_recv_app. cbn [map _monitor_recv].
    rewrite monitor_idle_word by lia. cbn [bind]. exact Hrun.
  - rewrite app_nil_l. exact Hrun.
Qed.

(** X19: a monitor that is scanning with an empty buffer receives a
    transmission whatever it has received or logged before: the padded
    payload is appended to the payloads received, no error is added, and the
    monitor is scanning with an empty buffer again.  This holds for every
    width for which the transmission succeeds. *)
Theorem scanning_monitor_receives :
  forall (N : nat) (il : bool) (raw : list Z) (sync : bool)
         (e : list LogError) (r : list (list Z)),
    (1 <= N <= Nat.max 60 (length raw) + 12)%nat ->
    Forall u8 raw ->
    exists words : list Z,
      transmit N il raw sync = Ok words /\
      _monitor_recv (mkMonitor N il [] e r) SCANNING words
      = Ok (mkMonitor N il [] e (r ++ [raw ++ repeat 0 (60 - length raw)]),
            SCANNING).
Proof.
  intros N il raw sync e r HN Hu.
  pose proof (layer1_length_eq raw) as L.
  rewrite transmit_ok_gen by lia. eexists. split; [reflexivity|].
  now rewrite monitor_receives_frame by (assumption || lia).
Qed.

Lemma scanning_monitor_receives_witness :
  exists words : list Z,
    transmit 8 true [1; 2; 3] false = Ok words /\
    _monitor_recv (mkMonitor 8 true [] [UnknownPreamble] [[9]]) SCANNING words
    = Ok (mkMonitor 8 true [] [UnknownPreamble]
            [[9]; [1; 2; 3] ++ repeat 0 57], SCANNING).
Proof.
  apply (scanning_monitor_receives 8 true [1; 2; 3] false
           [UnknownPreamble] [[9]]).
  - cbn; lia.
  - repeat constructor; unfold u8; lia.
Defined.

Lemma monitor_idle_aborts N il p e r :
  (1 <= N)%nat ->
  monitor_edge (mkMonitor N il p e r) ACCUMULATING
    (word_of il N (idle_lanes N))
  = Ok (mkMonitor N il [] (e ++ [ControlCharacterInPayload]) r, SCANNING).
Proof.
  intros HN. unfold monitor_edge. cbn [bytes interleaved].
  rewrite get_bytes_word_of
    by (apply idle_lanes_u8 || (unfold idle_lanes; apply repeat_length)).
  destruct N as [|n]; [lia|].
  unfold idle_lanes. cbn [repeat map fst snd]. unfold accumulate.
  cbn [_add_payload].
  change (_XGMII_IDLE =? _XGMII_TERMINATE) with false. cbn [negb bind].
  now rewrite deliver_empty.
Qed.

(** X20: a monitor caught in the middle of a frame recovers on a
    transmission that begins with the [sync] edge: the idle word of that edge
    aborts the frame under way (one control-character error, its bytes
    dropped), and the transmission that follows is received whole. *)
Theorem sync_transmission_recovers :
  forall (N : nat) (il : bool) (raw p : list Z)
         (e : list LogError) (r : list (list Z)),
    (1 <= N <= Nat.max 60 (length raw) + 12)%nat ->
    Forall u8 raw ->
    exists words : list Z,
      transmit N il raw true = Ok words /\
      _monitor_recv (mkMonitor N il p e r) ACCUMULATING words
      = Ok (mkMonitor N il [] (e ++ [ControlCharacterInPayload])
              (r ++ [raw ++ repeat 0 (60 - length raw)]), SCANNING).
Proof.
  intros N il raw p e r HN Hu.
  pose proof (layer1_length_eq raw) as L.
  rewrite transmit_ok_gen by lia. eexists. split; [reflexivity|].
  change (transmit_lanes N (layer1 raw) true)
    with (idle_lanes N :: transmit_lanes N (layer1 raw) false).
  cbn [map _monitor_recv]. rewrite monitor_idle_aborts by lia. cbn [bind].
  now rewrite monitor_receives_frame by (assumption || lia).
Qed.

Lemma sync_transmission_recovers_witness :
  exists words : list Z,
    transmit 4 false [0xAA] true = Ok words /\
    _monitor_recv (mkMonitor 4 false [0x55; 0x55] [] []) ACCUMULATING words
    = Ok (mkMonitor 4 false [] [ControlCharacterInPayload]
            [[0xAA] ++ repeat 0 59], SCANNING).
Proof.
  apply (sync_transmission_recovers 4 false [0xAA] [0x55; 0x55] [] []).
  - cbn; lia.
  - repeat constructor; unfold u8; lia.
Defined.

Lemma send_frames_received N il sync pkts : forall eds r,
  (1 <= N <= 72)%nat ->
  Forall (Forall u8) pkts ->
  _monitor_recv (monitor_init N il) SCANNING eds
  = Ok (mkMonitor N il [] [] r, SCANNING) ->
  exists d : Driver,
    send_frames (mkDriver (mkBus 0 il N) (word_of il N (idle_lanes N)) eds)
      pkts sync = Ok d /\
    bus d = mkBus 0 il N /\
    _monitor_recv (monitor_init N il) SCANNING (edges d)
    = Ok (mkMonitor N il [] [] (r ++ map PaddedPayload pkts), SCANNING).
Proof.
  induction pkts as [|pkt pkts IH]; intros eds r HN Hu Hm;
    cbn [send_frames map].
  - eexists. split; [reflexivity|]. cbn [bus edges].
    split; [reflexivity|]. now rewrite app_nil_r.
  - inversion Hu as [|? ? Hu1 Hu2]; subst.
    pose proof (layer1_length pkt) as L.
    rewrite driver_send_ok by lia. cbn [bind].
    destruct (IH (eds
                    ++ (if sync then [word_of il N (idle_lanes N)] else [])
                    ++ [word_of il N (start_lanes N (layer1 pkt))]
                    ++ map (word_of il N)
                         (frame_lanes (length (skipn (N - 1) (layer1 pkt))) N
                            (skipn (N - 1) (layer1 pkt)))
                    ++ [word_of il N (idle_lanes N)])
                (r ++ [PaddedPayload pkt]) HN Hu2) as (d & E & Hb & Hr).
    + rewrite monitor_recv_app, Hm. cbn [bind].
      rewrite <- (monitor_receives_frame N il pkt sync [] r)
        by (assumption || lia).
      f_equal. unfold transmit_lanes. cbv zeta. rewrite !map_app.
      destruct sync; reflexivity.
    + exists d. split; [exact E|]. split; [exact Hb|].
      rewrite Hr, <- app_assoc. reflexivity.
Qed.

(** X21: transmissions compose.  A driver sends any number of packets one
    after the other (each call leaves the bus cleared and the signal idle),
    and a monitor observing every rising edge hands over the padded payload
    of each packet, in the order sent, with no error logged. *)
Theorem successive_frames_received_in_order :
  forall (N : nat) (il : bool) (pkts : list (list Z)) (sync : bool),
    (N = 4 \/ N = 8)%nat ->
    Forall (Forall u8) pkts ->
    exists d : Driver,
      (d0 <- driver_init N il ;; send_frames d0 pkts sync) = Ok d /\
      _integer (bus d) = 0 /\
      _monitor_recv (monitor_init N il) SCANNING (edges d)
      = Ok (mkMonitor N il [] []
              (map (fun pkt => pkt ++ repeat 0 (60 - length pkt)) pkts),
            SCANNING).
Proof.
  intros N il pkts sync HN Hu.
  unfold driver_init, new_bus. rewrite idle_ok. cbn [bind].
  destruct (send_frames_received N il sync pkts [] []) as (d & E & Hb & Hr);
    [lia|assumption|reflexivity|].
  exists d. split; [exact E|]. split; [now rewrite Hb|exact Hr].
Qed.

Lemma successive_frames_received_in_order_witness :
  exists d : Driver,
    (d0 <- driver_init 4 true ;; send_frames d0 [[1]; [2; 3]] true) = Ok d /\
    _monitor_recv (monitor_init 4 true) SCANNING (edges d)
    = Ok (mkMonitor 4 true [] []
            [[1] ++ repeat 0 59; [2; 3] ++ repeat 0 58], SCANNING).
Proof.
  destruct (successive_frames_received_in_order 4 true [[1]; [2; 3]] true)
    as (d & E & _ & Hr).
  - left; reflexivity.
  - repeat constructor; unfold u8; lia.
  - exists d. split; assumption.
Defined.

(** X22: the wire frame of [layer1] is never a runt: it has
    [max 60 (len packet) + 11] bytes, at least 71.  Padding happens once:
    a packet that already carries its zero padding is framed exactly like the
    packet without it. *)
Theorem layer1_length_and_padding :
  forall packet : list Z,
    length (layer1 packet) = (Nat.max 60 (length packet) + 11)%nat /\
    (71 <= length (layer1 packet))%nat /\
    layer1 (packet ++ repeat 0 (60 - length packet)) = layer1 packet.
Proof.
  intros packet. split; [apply layer1_length_eq|].
  split; [apply layer1_length|].
  rewrite !layer1_wire. unfold WireFrame.
  fold (PaddedPayload packet).
  assert (PaddedPayload (PaddedPayload packet) = PaddedPayload packet) as ->;
    [|reflexivity].
  apply PaddedPayload_long. rewrite PaddedPayload_length. lia.
Qed.

Lemma transmit_lanes_wf N wire sync :
  (1 <= N)%nat -> (N - 1 <= length wire)%nat -> Forall u8 wire ->
  Forall (fun lanes => length lanes = N
                       /\ Forall (fun lane => u8 (fst lane)) lanes)
    (transmit_lanes N wire sync).
Proof.
  intros HN Hw Hu. unfold transmit_lanes. cbv zeta.
  assert (length (idle_lanes N) = N
          /\ Forall (fun lane => u8 (fst lane)) (idle_lanes N)) as Hidle.
  { split; [apply repeat_length|apply idle_lanes_u8]. }
  destruct (Forall_firstn_skipn u8 wire (N - 1) Hu) as [Hu1 Hu2].
  apply Forall_app. split; [destruct sync; repeat constructor; apply Hidle|].
  apply Forall_app. split.
  { constructor; [|constructor]. unfold start_lanes, data_lanes. split.
    - cbn [length]. rewrite length_map, length_firstn. lia.
    - constructor; [cbn; unfold u8, _XGMII_START; lia|].
      now apply data_lanes_u8. }
  apply Forall_app. split; [|repeat constructor; apply Hidle].
  destruct (frame_lanes_split N HN (length (skipn (N - 1) wire))
              (skipn (N - 1) wire) (le_n _))
    as (chunks & tail & E & Hc & Hf & Ht & _).
  rewrite E. rewrite <- Hc in Hu2. apply Forall_app in Hu2.
  destruct Hu2 as [Huc Hut]. apply Forall_concat in Huc.
  apply Forall_app. split.
  - apply Forall_map. apply Forall_forall. intros c Hin. split.
    + unfold data_lanes. rewrite length_map.
      apply (proj1 (Forall_forall _ chunks) Hf c Hin).
    + apply data_lanes_u8. apply (proj1 (Forall_forall _ chunks) Huc c Hin).
  - constructor; [|constructor]. unfold term_lanes. split.
    + unfold data_lanes, idle_lanes.
      rewrite length_app, length_map. cbn [length].
      rewrite repeat_length. lia.
    + apply Forall_app. split; [now apply data_lanes_u8|].
      constructor; [cbn; unfold u8, _XGMII_TERMINATE; lia|].
      apply idle_lanes_u8.
Qed.

(** X23: what the driver writes is what the monitor reads, word by word.
    For every width for which the transmission succeeds and either layout,
    unpacking each word on the signal with [_get_bytes] gives the control
    flags and bytes of the lanes the driver wrote for that edge: the optional
    idle word, the start word, the data words, the terminating word and the
    closing idle word. *)
Theorem transmitted_words_unpack :
  forall (N : nat) (il : bool) (raw : list Z) (sync : bool),
    (1 <= N <= Nat.max 60 (length raw) + 12)%nat ->
    Forall u8 raw ->
    exists words : list Z,
      transmit N il raw sync = Ok words /\
      map (_get_bytes N il) words
      = map (fun lanes => (map snd lanes, map fst lanes))
          (transmit_lanes N (layer1 raw) sync).
Proof.
  intros N il raw sync HN Hu.
  pose proof (layer1_length_eq raw) as L.
  rewrite transmit_ok_gen by lia. eexists. split; [reflexivity|].
  rewrite map_map. apply map_ext_Forall.
  eapply Forall_impl;
    [|apply (transmit_lanes_wf N (layer1 raw) sync);
      [lia|lia|now apply layer1_u8]].
  intros lanes [Hl Hb]. now apply get_bytes_word_of.
Qed.

Lemma transmitted_words_unpack_witness :
  exists words : list Z,
    transmit 4 true [0xAA] false = Ok words /\
    nth 0 (map (_get_bytes 4 true) words) ([], [])
    = ([true; false; false; false], [0xFB; 0x55; 0x55; 0x55]).
Proof.
  destruct (transmitted_words_unpack 4 true [0xAA] false) as (w & E & H).
  - cbn; lia.
  - repeat constructor; unfold u8; lia.
  - exists w. split; [exact E|]. rewrite H. reflexivity.
Defined.

Lemma monitor_start_word_lane4 il wire e r :
  (3 <= length wire)%nat -> Forall u8 wire ->
  monitor_edge (mkMonitor 8 il [] e r) SCANNING
    (word_of il 8
       (idle_lanes 4 ++ (_XGMII_START, true) :: data_lanes (firstn 3 wire)))
  = Ok (mkMonitor 8 il (firstn 3 wire) e r, ACCUMULATING).
Proof.
  intros Hw Hu. unfold monitor_edge. cbn [bytes interleaved].
  rewrite get_bytes_word_of.
  - unfold idle_lanes.
    cbn [repeat app map fst snd index nth_error bind skipn Nat.eqb].
    change (_XGMII_IDLE =? _XGMII_START) with false.
    rewrite Z.eqb_refl. cbn [andb]. unfold accumulate.
    rewrite add_payload_lanes_data. reflexivity.
  - unfold idle_lanes, data_lanes. rewrite length_app, repeat_length.
    cbn [length]. rewrite length_map, length_firstn. lia.
  - apply Forall_app. split; [apply idle_lanes_u8|].
    constructor; [cbn; unfold u8, _XGMII_START; lia|].
    apply data_lanes_u8. now apply Forall_firstn_skipn.
Qed.

(** X24: on an 8-lane bus the monitor receives a frame whose start symbol
    sits on lane 4: after a word with IDLE on lanes 0..3, START on lane 4 and
    the first three wire-frame bytes on lanes 5..7, followed by the remaining
    bytes in full data words and the terminating word, the padded payload is
    handed over with no error, as for a frame started on lane 0. *)
Theorem lane4_aligned_frame_received :
  forall (il : bool) (raw : list Z) (e : list LogError) (r : list (list Z)),
    Forall u8 raw ->
    let wire := layer1 raw in
    _monitor_recv (mkMonitor 8 il [] e r) SCANNING
      (map (word_of il 8)
         ([idle_lanes 4
             ++ (_XGMII_START, true) :: data_lanes (firstn 3 wire)]
            ++ frame_lanes (length (skipn 3 wire)) 8 (skipn 3 wire)
            ++ [idle_lanes 8]))
    = Ok (mkMonitor 8 il [] e (r ++ [raw ++ repeat 0 (60 - length raw)]),
          SCANNING).
Proof.
  intros il raw e r Hu wire.
  pose proof (layer1_length raw) as L. fold wire in L.
  pose proof (layer1_u8 raw Hu) as Hw. fold wire in Hw.
  rewrite !map_app, monitor_recv_app. cbn [map _monitor_recv].
  rewrite monitor_start_word_lane4 by (assumption || lia). cbn [bind].
  rewrite monitor_recv_app.
  rewrite monitor_frame_words
    by (lia || apply (Forall_firstn_skipn u8 wire 3 Hw)).
  rewrite firstn_skipn. unfold wire. rewrite deliver_wire.
  cbn [bind app _monitor_recv].
  rewrite monitor_idle_word by lia. reflexivity.
Qed.

Lemma lane4_aligned_frame_received_witness :
  _monitor_recv (mkMonitor 8 false [] [] []) SCANNING
    (map (word_of false 8)
       ([idle_lanes 4
           ++ (_XGMII_START, true) :: data_lanes (firstn 3 (layer1 [0xAA]))]
          ++ frame_lanes (length (skipn 3 (layer1 [0xAA]))) 8
               (skipn 3 (layer1 [0xAA]))
          ++ [idle_lanes 8]))
  = Ok (mkMonitor 8 false [] [] [[0xAA] ++ repeat 0 59], SCANNING).
Proof.
  apply (lane4_aligned_frame_received false [0xAA] [] []).
  repeat constructor; unfold u8; lia.
Defined.
